(** * store_manager: catalog, ledger, lookup, stock mutation and checkout

    A shallow embedding of [store_manager.py].  The workbook
    [inventory.xlsx] holds three sheets (products, transactions, stock_log);
    every operation of the program reads them, changes one and writes all
    three back.  The embedding keeps the three sheets in a record and threads
    it, with the session cart, through a small state-and-exception monad:
    a Python exception leaves the sheets as they were last written. *)

From Stdlib Require Import String Ascii List ZArith Bool Arith Lia.
From Stdlib Require Import Floats Uint63.
Import ListNotations.

Local Open Scope string_scope.
Local Open Scope list_scope.

(** ** Strings *)

(** The characters [str.strip] removes, within ASCII: tab, newline, vertical
    tab, form feed, carriage return, the four separators 0x1c-0x1f and the
    space.  (Python also strips the Unicode spaces, which take more than one
    byte here.) *)
Definition is_space (c : ascii) : bool :=
  let n := nat_of_ascii c in
  ((9 <=? n)%nat && (n <=? 13)%nat) || ((28 <=? n)%nat && (n <=? 32)%nat).

Fixpoint lstrip (s : string) : string :=
  match s with
  | EmptyString => EmptyString
  | String c s' => if is_space c then lstrip s' else s
  end.

Fixpoint rev_string (s acc : string) : string :=
  match s with
  | EmptyString => acc
  | String c s' => rev_string s' (String c acc)
  end.

Definition rstrip (s : string) : string :=
  rev_string (lstrip (rev_string s EmptyString)) EmptyString.

Definition strip (s : string) : string := rstrip (lstrip s).

(** [str(x)] of a text cell that may be missing: pandas prints NaN as "nan". *)
Definition astype_str (x : option string) : string :=
  match x with Some s => s | None => "nan" end.

(** ** Data model *)

(** One row of the products frame, as [load_products] returns it: [barcode]
    and [id] are strings (missing cells were filled with the empty string),
    [stock] and [bulk_quantity] are integers, the three prices are floats or
    NaN ([None]), every other column is a text cell or NaN. *)
Record Product := mkProduct {
  category : option string;
  id : string;
  name : option string;
  barcode : string;
  bulk_price : option float;
  bulk_quantity : Z;
  purchase_price : option float;
  price : option float;
  profit_margin : option string;
  stock : Z;
  location : option string;
  supplier : option string;
  image_path : option string;
  notes : option string;
  expiry_date : option string
}.

Definition with_stock (p : Product) (z : Z) : Product :=
  mkProduct (category p) (id p) (name p) (barcode p) (bulk_price p)
    (bulk_quantity p) (purchase_price p) (price p) (profit_margin p) z
    (location p) (supplier p) (image_path p) (notes p) (expiry_date p).

(** A cart line, as the POS page appends it to [st.session_state.cart]. *)
Record LineItem := mkItem {
  item_id : string;
  item_barcode : string;
  item_name : option string;
  item_price : float;
  qty : Z;
  subtotal : float
}.

Record Transaction := mkTxn {
  txn_id : string;
  txn_datetime : string;
  items : list LineItem;
  total : float;
  paid : float;
  change : float;
  txn_operator : string;
  txn_note : string
}.

Record StockLogEntry := mkLog {
  log_id : string;
  log_datetime : string;
  log_barcode : string;
  log_name : option string;
  log_change : Z;
  before_stock : Z;
  after_stock : Z;
  log_type : string;
  log_operator : string;
  log_note : string
}.

(** The workbook, which is taken to be there ([ensure_inventory_file] then
    does nothing): the products sheet in the form [load_products] reads it
    back, and the two logs. *)
Record Store := mkStore {
  products : list Product;
  transactions : list Transaction;
  stock_log : list StockLogEntry
}.

(** The workbook, the session cart, and the number of identifiers drawn so
    far from [uuid.uuid4]. *)
Record World := mkWorld {
  store : Store;
  cart : list LineItem;
  tick : nat
}.

(** ** Exceptions and state *)

Inductive exn :=
| TypeError (msg : string)
| KeyError (msg : string)
| ValueError (msg : string)
| OSError (msg : string).

Inductive outcome (A : Type) :=
| Ret (a : A)
| Raise (e : exn).
Arguments Ret {A} a.
Arguments Raise {A} e.

Definition M (A : Type) : Type := World -> World * outcome A.

Definition ret {A} (a : A) : M A := fun w => (w, Ret a).
Definition raise {A} (e : exn) : M A := fun w => (w, Raise e).
Definition bind {A B} (m : M A) (k : A -> M B) : M B :=
  fun w => match m w with
           | (w', Ret a) => k a w'
           | (w', Raise e) => (w', Raise e)
           end.

Declare Scope py_scope.
Delimit Scope py_scope with py.
Notation "x <- m ;; k" := (bind m (fun x => k))
  (at level 100, m at next level, right associativity) : py_scope.
Notation "m ;;; k" := (bind m (fun _ => k))
  (at level 100, right associativity) : py_scope.
Local Open Scope py_scope.

Definition get_store : M Store := fun w => (w, Ret (store w)).
Definition put_store (s : Store) : M unit :=
  fun w => (mkWorld s (cart w) (tick w), Ret tt).
Definition get_cart : M (list LineItem) := fun w => (w, Ret (cart w)).
Definition put_cart (c : list LineItem) : M unit :=
  fun w => (mkWorld (store w) c (tick w), Ret tt).

(** ** Catalog store and ledger store *)

(** An empty text cell is read back as NaN. *)
Definition reread (x : option string) : option string :=
  match x with
  | Some s => if String.eqb s "" then None else Some s
  | None => None
  end.

(** What a row is after [save_products] and the next [load_products]: the
    sheet is written with the fourteen localized headers of [COLUMN_MAP], so
    [expiry_date], which has none, is not written and is read back as
    missing; empty text cells come back as NaN. *)
Definition persisted (p : Product) : Product :=
  mkProduct (reread (category p)) (id p) (reread (name p)) (barcode p)
    (bulk_price p) (bulk_quantity p) (purchase_price p) (price p)
    (reread (profit_margin p)) (stock p) (reread (location p))
    (reread (supplier p)) (reread (image_path p)) (reread (notes p)) None.

Definition load_products : M (list Product) :=
  fun w => (w, Ret (products (store w))).

Definition save_products (df : list Product) : M unit :=
  s <- get_store ;;
  put_store (mkStore (map persisted df) (transactions s) (stock_log s)).

Definition append_transaction (tx_record : Transaction) : M unit :=
  s <- get_store ;;
  let tx := transactions s ++ [tx_record] in
  prod <- load_products ;;
  put_store (mkStore (map persisted prod) tx (stock_log s)).

Definition append_stock_log (log_record : StockLogEntry) : M unit :=
  s <- get_store ;;
  let log := stock_log s ++ [log_record] in
  prod <- load_products ;;
  put_store (mkStore (map persisted prod) (transactions s) log).

(** ** Frame accessors *)

(** [df.index[mask]]: the row labels where the mask holds, in order. *)
Fixpoint index_where {A} (f : A -> bool) (l : list A) (i : nat) : list nat :=
  match l with
  | [] => []
  | x :: l' => if f x then i :: index_where f l' (S i)
               else index_where f l' (S i)
  end.

(** [df.at[i, col] = v], written as an update of row [i]. *)
Fixpoint set_row {A} (i : nat) (f : A -> A) (l : list A) : list A :=
  match l, i with
  | [], _ => []
  | x :: l', O => f x :: l'
  | x :: l', S i' => x :: set_row i' f l'
  end.

(** [df.at[i]]: [.at] is the accessor of one scalar and takes a row label
    and a column label.  Given the row label alone, pandas wraps it as the
    one-element key [(i,)] and calls the frame's scalar getter [_get_value]
    with it, which then lacks its [col] argument: a TypeError, whatever the
    frame holds. *)
Definition at_row (df : list Product) (i : nat) : M Product :=
  raise (TypeError "_get_value() missing 1 required positional argument: 'col'").

Definition barcode_is (b : string) (p : Product) : bool :=
  String.eqb (barcode p) b.

(** ** Lookup engine: barcode *)

Definition search_by_barcode (barcode : string) (products_df : list Product)
  : list Product :=
  let barcode := strip barcode in
  if String.eqb barcode "" then []
  else filter (barcode_is barcode) products_df.

(** ** Stock mutator, checkout and catalog editor *)

Definition of_float (f : float) : option float :=
  if PrimFloat.is_nan f then None else Some f.

(** [cart_df["subtotal"].sum()]. *)
Definition series_sum (l : list float) : float :=
  fold_left PrimFloat.add l 0%float.

Inductive checkout_result :=
| Completed (txn : Transaction)
| PartiallyFailed (messages : list string)
| CartEmpty.

Section Operations.

(** The identifiers [uuid.uuid4] hands out, in the order they are drawn,
    and the reading of [datetime.now] once [n] of them were drawn. *)
Variable uuid4 : nat -> string.
Variable clock : nat -> string.

Definition uuid4_draw : M string :=
  fun w => (mkWorld (store w) (cart w) (S (tick w)), Ret (uuid4 (tick w))).

Definition datetime_now : M string :=
  fun w => (w, Ret (clock (tick w))).

Definition update_stock_by_barcode (barcode : string) (delta : Z)
    (operator typ note : string) : M (bool * string) :=
  df <- load_products ;;
  let idx := index_where (barcode_is barcode) df 0 in
  now <- datetime_now ;;
  match idx with
  | [] => ret (false, "未找到条码对应商品")
  | i :: _ =>
      match nth_error df i with
      | None => raise (KeyError "stock")
      | Some row =>
          let before := stock row in
          let after := (before + delta)%Z in
          let df := set_row i (fun p => with_stock p after) df in
          save_products df ;;;
          log_id <- uuid4_draw ;;
          r <- at_row df i ;;
          let log := mkLog log_id now barcode (name r) delta before after
                       typ operator note in
          append_stock_log log ;;;
          ret (true, "更新成功")
      end
  end.

(** The loop of the checkout button over the cart. *)
Fixpoint checkout_loop (lines : list LineItem) (success : bool)
    (messages : list string) : M (bool * list string) :=
  match lines with
  | [] => ret (success, messages)
  | it :: rest =>
      r <- update_stock_by_barcode (item_barcode it) (- qty it)
             "收银" "sale" "POS 结账" ;;
      if fst r then checkout_loop rest success messages
      else checkout_loop rest false
             (messages ++ [(astype_str (item_name it) ++ ": " ++ snd r)%string])
  end.

Definition checkout (paid : float) : M checkout_result :=
  c <- get_cart ;;
  match c with
  | [] => ret CartEmpty
  | _ :: _ =>
      let total := series_sum (map subtotal c) in
      r <- checkout_loop c true [] ;;
      if fst r then
        txn_id <- uuid4_draw ;;
        now <- datetime_now ;;
        let txn := mkTxn txn_id now c total paid (paid - total)%float
                     "收银" "" in
        append_transaction txn ;;;
        put_cart [] ;;;
        ret (Completed txn)
      else ret (PartiallyFailed (snd r))
  end.

(** The [add_form] block of the maintenance page. *)
Definition add_product (name barcode category : string)
    (price purchase_price bulk_price : float) (bulk_quantity : Z)
    (location : string) (stock : Z) (notes : string) : M unit :=
  df <- load_products ;;
  new_id <- uuid4_draw ;;
  let new_barcode := strip barcode in
  let new_name := strip name in
  let new :=
    mkProduct (Some (strip category)) new_id (Some new_name) new_barcode
      (of_float bulk_price) bulk_quantity (of_float purchase_price)
      (of_float price) None stock (Some (strip location)) (Some "")
      (Some "") (Some (strip notes)) (Some "") in
  let df := df ++ [new] in
  save_products df ;;;
  if (0 <? stock)%Z && negb (String.eqb new_barcode "") then
    log_id <- uuid4_draw ;;
    now <- datetime_now ;;
    append_stock_log
      (mkLog log_id now new_barcode (Some new_name) stock 0 stock
         "in_initial" "system" "新建商品初始库存")
  else ret tt.

(** The [save_btn] branch of the edit form; [true] when the row was found. *)
Definition update_product (e_barcode name2 category2 : string)
    (price2 purchase_price2 bulk_price2 : float) (bulk_quantity2 : Z)
    (location2 : string) (stock2 : Z) (notes2 : string) : M bool :=
  df_all <- load_products ;;
  let idx := index_where (barcode_is e_barcode) df_all 0 in
  match idx with
  | [] => ret false
  | i :: _ =>
      match nth_error df_all i with
      | None => raise (KeyError "stock")
      | Some row =>
          let before_stock := stock row in
          let edit p :=
            mkProduct (Some category2) (id p) (Some name2) (barcode p)
              (of_float bulk_price2) bulk_quantity2
              (of_float purchase_price2) (of_float price2)
              (profit_margin p) stock2 (Some location2) (supplier p)
              (image_path p) (Some notes2) (expiry_date p) in
          let df_all := set_row i edit df_all in
          save_products df_all ;;;
          (if negb (before_stock =? stock2)%Z then
             log_id <- uuid4_draw ;;
             now <- datetime_now ;;
             append_stock_log
               (mkLog log_id now e_barcode (Some name2)
                  (stock2 - before_stock) before_stock stock2
                  "adjust_manual" "库存编辑" "人工修改库存")
           else ret tt) ;;;
          ret true
      end
  end.

(** The [del_btn] branch of the edit form. *)
Definition delete_product (e_barcode : string) : M unit :=
  df_all <- load_products ;;
  let df_all := filter (fun p => negb (barcode_is e_barcode p)) df_all in
  save_products df_all.

End Operations.

(** ** Lookup engine: name *)

(** [DataFrame.head(n)]: the first [n] rows, or all but the last [-n] rows
    when [n] is negative. *)
Definition head {A} (n : Z) (l : list A) : list A :=
  if (0 <=? n)%Z then firstn (Z.to_nat n) l
  else firstn (length l - Z.to_nat (- n)) l.

(** [Series.isin(names)] on one cell; NaN is not among the names. *)
Definition isin (x : option string) (names : list string) : bool :=
  match x with
  | Some s => existsb (String.eqb s) names
  | None => false
  end.

(** One result of [rapidfuzz.process.extract]: the choice, its score and its
    position among the choices. *)
Definition match_result : Type := string * float * nat.

Section NameLookup.

(** Whether [rapidfuzz] could be imported; what
    [Series.str.contains(pat, case=False, na=False)] answers on one text
    (pattern first); and [process.extract(query, choices, scorer=fuzz.WRatio,
    limit=limit)]. *)
Variable RAPIDFUZZ_AVAILABLE : bool.
Variable str_contains : string -> string -> bool.
Variable extract : string -> list string -> Z -> list match_result.

Definition search_by_name (query : string) (products_df : list Product)
    (limit : Z) : list Product :=
  let query := strip query in
  if (String.length query =? 0)%nat then []
  else
    let subs :=
      filter (fun p => str_contains query (astype_str (name p))) products_df in
    if (1 <=? length subs)%nat || negb RAPIDFUZZ_AVAILABLE then head limit subs
    else
      let choices := map (fun p => astype_str (name p)) products_df in
      let results := extract query choices limit in
      let names := map (fun r => fst (fst r)) results in
      filter (fun p => isin (name p) names) products_df.

End NameLookup.

(** What is assumed of [process.extract]: each result is one of the choices,
    at the position it reports; one result at least comes back when the limit
    is positive and there are choices; and no more results than the limit. *)
Definition extract_contract
    (extract : string -> list string -> Z -> list match_result) : Prop :=
  forall query choices limit,
    (forall r, In r (extract query choices limit) ->
               nth_error choices (snd r) = Some (fst (fst r))) /\
    ((0 < limit)%Z -> choices <> [] -> extract query choices limit <> []) /\
    ((0 <= limit)%Z ->
     (length (extract query choices limit) <= Z.to_nat limit)%nat).

(** Sample instances: a literal, case-insensitive substring test (what
    [str.contains] answers for a pattern without regular-expression
    operators), and an extractor that scores every choice alike. *)
Definition lower (c : ascii) : ascii :=
  let n := nat_of_ascii c in
  if ((65 <=? n)%nat && (n <=? 90)%nat) then ascii_of_nat (n + 32) else c.

Fixpoint prefix_ci (p s : string) : bool :=
  match p, s with
  | EmptyString, _ => true
  | String _ _, EmptyString => false
  | String a p', String b s' => Ascii.eqb (lower a) (lower b) && prefix_ci p' s'
  end.

Fixpoint literal_contains (p s : string) : bool :=
  prefix_ci p s ||
  match s with
  | EmptyString => false
  | String _ s' => literal_contains p s'
  end.

Fixpoint enumerate (l : list string) (i : nat) : list match_result :=
  match l with
  | [] => []
  | x :: l' => (x, 50%float, i) :: enumerate l' (S i)
  end.

Definition sample_extract (query : string) (choices : list string) (limit : Z)
  : list match_result :=
  firstn (Z.to_nat limit) (enumerate choices 0).

(** ** The products sheet, column by column *)

(** [load_products] proper: [ensure_inventory_file], then, under [try],
    from what [pd.read_excel(..., dtype=str)] gives, or the exception it
    raises, to the frame with internal column names and typed columns.  (The
    operations above start from a workbook that is there, so for them
    [ensure_inventory_file] does nothing.) *)
Module Sheet.

Inductive cell :=
| NaN
| Str (s : string)
| Num (f : float)
| Int (z : Z).

(** A frame: the number of rows and the labelled columns, in order.  Labels
    may repeat (renaming can make two columns meet). *)
Record DataFrame := mkFrame {
  index : nat;
  columns : list (string * list cell)
}.

(** A sheet read with [dtype=str]: every cell is a string or missing. *)
Record RawFrame := mkRaw {
  raw_index : nat;
  raw_columns : list (string * list (option string))
}.

Definition of_cell (x : option string) : cell :=
  match x with Some s => Str s | None => NaN end.

Definition of_raw (r : RawFrame) : DataFrame :=
  mkFrame (raw_index r)
    (map (fun kc => (fst kc, map of_cell (snd kc))) (raw_columns r)).

Definition COLUMN_MAP : list (string * string) :=
  [ ("分类", "category"); ("序号", "id"); ("商品名称", "name");
    ("条形码", "barcode"); ("1件箱套条包盒价格", "bulk_price");
    ("1件箱套条包盒数量", "bulk_quantity");
    ("1个单位进货价格", "purchase_price"); ("销售价", "price");
    ("利润率", "profit_margin"); ("库存", "stock"); ("位置", "location");
    ("供应商", "supplier"); ("图片路径", "image_path"); ("备注", "notes") ].

Definition CHINESE_HEADERS_ORDER : list string := map fst COLUMN_MAP.
Definition ENGLISH_HEADERS_ORDER : list string := map snd COLUMN_MAP.
Definition INTERNAL_COLUMNS : list string :=
  ENGLISH_HEADERS_ORDER ++ ["expiry_date"].

Definition mem (c : string) (l : list string) : bool :=
  existsb (String.eqb c) l.

Definition labels (df : DataFrame) : list string := map fst (columns df).

(** [df.rename(columns=m)]. *)
Definition rename_label (m : list (string * string)) (c : string) : string :=
  match find (fun kv => String.eqb (fst kv) c) m with
  | Some kv => snd kv
  | None => c
  end.

Definition rename (m : list (string * string)) (df : DataFrame) : DataFrame :=
  mkFrame (index df)
    (map (fun kc => (rename_label m (fst kc), snd kc)) (columns df)).

(** [if col not in df.columns: df[col] = None]. *)
Definition add_missing (df : DataFrame) (col : string) : DataFrame :=
  if mem col (labels df) then df
  else mkFrame (index df) (columns df ++ [(col, repeat NaN (index df))]).

(** [df[c]]: the columns labelled [c]; one of them is a Series, several are
    a frame. *)
Definition getitem (c : string) (df : DataFrame) : list (list cell) :=
  map snd (filter (fun kc => String.eqb (fst kc) c) (columns df)).

(** [df[c] = f(df[c])] for an elementwise or columnwise [f]: every column
    labelled [c] is replaced. *)
Definition map_named (c : string) (f : list cell -> list cell)
    (df : DataFrame) : DataFrame :=
  mkFrame (index df)
    (map (fun kc => if String.eqb (fst kc) c then (fst kc, f (snd kc)) else kc)
       (columns df)).

(** Exceptions without state. *)
Definition obind {A B} (m : outcome A) (k : A -> outcome B) : outcome B :=
  match m with Ret a => k a | Raise e => Raise e end.

Definition try_except {A} (body : outcome A) (handler : exn -> outcome A)
  : outcome A :=
  match body with Ret a => Ret a | Raise e => handler e end.

(** [.fillna("").astype(str)] on a text cell. *)
Definition fillna_str (c : cell) : cell :=
  match c with NaN => Str "" | _ => c end.

(** [.fillna(0)] on a numeric cell. *)
Definition fillna_zero (c : cell) : cell :=
  match c with NaN => Num 0%float | _ => c end.

(** The integer a finite float is cast to (toward zero); none for an
    infinity or a NaN. *)
Definition float_to_int (f : float) : option Z :=
  match Prim2SF f with
  | S754_zero _ => Some 0%Z
  | S754_finite s m e =>
      let v := if (0 <=? e)%Z then Z.shiftl (Zpos m) e
               else Z.shiftr (Zpos m) (- e) in
      Some (if s then (- v)%Z else v)
  | S754_infinity _ => None
  | S754_nan => None
  end.

Definition non_finite : exn :=
  ValueError "Cannot convert non-finite values (NA or inf) to integer".

(** [.astype(int)] on one cell. *)
Definition astype_int_cell (c : cell) : outcome cell :=
  match c with
  | Int z => Ret (Int z)
  | Num f => match float_to_int f with
             | Some z => Ret (Int z)
             | None => Raise non_finite
             end
  | NaN => Raise non_finite
  | Str _ => Raise (ValueError "invalid literal for int()")
  end.

Fixpoint astype_int (s : list cell) : outcome (list cell) :=
  match s with
  | [] => Ret []
  | c :: s' =>
      obind (astype_int_cell c) (fun c' =>
      obind (astype_int s') (fun r => Ret (c' :: r)))
  end.

Section Load.

(** What [pd.to_numeric] makes of one string; [None] where it cannot be
    read as a number. *)
Variable to_numeric : string -> option float.

(** [pd.to_numeric(., errors="coerce")] on one cell. *)
Definition to_numeric_cell (c : cell) : cell :=
  match c with
  | Str s => match to_numeric s with
             | Some f => if PrimFloat.is_nan f then NaN else Num f
             | None => NaN
             end
  | _ => c
  end.

(** [pd.to_numeric] wants a Series: a selection of several columns is a
    frame, and a TypeError. *)
Definition to_numeric_series (sel : list (list cell)) : outcome (list cell) :=
  match sel with
  | [s] => Ret (map to_numeric_cell s)
  | _ => Raise (TypeError "arg must be a list, tuple, 1-d array, or Series")
  end.

(** [try: df[c] = pd.to_numeric(df[c], errors="coerce").fillna(0).astype(int)
     except Exception: df[c] = 0]. *)
Definition numeric_int (c : string) (df : DataFrame) : DataFrame :=
  match obind (to_numeric_series (getitem c df))
              (fun s => astype_int (map fillna_zero s)) with
  | Ret s => map_named c (fun _ => s) df
  | Raise _ => map_named c (map (fun _ => Int 0)) df
  end.

(** [if c in df.columns: df[c] = pd.to_numeric(df[c], errors="coerce")]. *)
Definition numeric_float (c : string) (df : DataFrame) : outcome DataFrame :=
  if mem c (labels df) then
    obind (to_numeric_series (getitem c df))
          (fun s => Ret (map_named c (fun _ => s) df))
  else Ret df.

(** The frame of the [except] branch: the internal columns, no rows. *)
Definition empty_catalog : DataFrame :=
  mkFrame 0 (map (fun c => (c, [])) INTERNAL_COLUMNS).

(** The three stages of the [try] block.  First the header: when one of
    the localized labels is among the raw columns, the columns are renamed
    through [COLUMN_MAP]; otherwise the frame is taken as it is. *)
Definition header_frame (raw : RawFrame) : DataFrame :=
  let df_raw := of_raw raw in
  let raw_cols := labels df_raw in
  if existsb (fun c => mem c raw_cols) CHINESE_HEADERS_ORDER
  then rename COLUMN_MAP df_raw else df_raw.

(** Then the internal columns that are missing are added, filled with
    [None]. *)
Definition completed (df : DataFrame) : DataFrame :=
  fold_left add_missing INTERNAL_COLUMNS df.

(** Then the columns are typed. *)
Definition type_columns (df : DataFrame) : outcome DataFrame :=
  let df := map_named "barcode" (map fillna_str) df in
  let df := map_named "id" (map fillna_str) df in
  let df := numeric_int "stock" df in
  obind (numeric_float "price" df) (fun df =>
  obind (numeric_float "purchase_price" df) (fun df =>
  obind (numeric_float "bulk_price" df) (fun df =>
  let df :=
    if mem "bulk_quantity" (labels df) then numeric_int "bulk_quantity" df
    else df in
  Ret df))).

(** The [try] statement of [load_products]. *)
Definition read_products (file : outcome RawFrame) : outcome DataFrame :=
  try_except
    (obind file (fun raw => type_columns (completed (header_frame raw))))
    (fun _ => Ret empty_catalog).

(** [ensure_inventory_file]: nothing to do when the workbook is there;
    otherwise the seed workbook is written, which returns or raises. *)
Definition ensure_inventory_file (present : bool) (created : outcome unit)
  : outcome unit :=
  if present then Ret tt else created.

Definition load_products (present : bool) (created : outcome unit)
    (file : outcome RawFrame) : outcome DataFrame :=
  obind (ensure_inventory_file present created) (fun _ => read_products file).

(** *** The columns as the specification describes them *)

(** The internal name a raw label stands for: the localized labels are
    translated when the header has one of them. *)
Definition internal_label (raw : RawFrame) (k : string) : string :=
  if existsb (fun c => mem c (map fst (raw_columns raw))) CHINESE_HEADERS_ORDER
  then rename_label COLUMN_MAP k else k.

(** The raw columns that stand for the internal column [c]. *)
Definition source (raw : RawFrame) (c : string)
  : list (list (option string)) :=
  map snd (filter (fun kc => String.eqb (internal_label raw (fst kc)) c)
             (raw_columns raw)).

(** An integer column: each cell the integer its text reads as, 0 where the
    text is missing or is no number; all 0 when some text reads as an
    infinity. *)
Definition int_column (col : list cell) : list cell :=
  match astype_int (map fillna_zero (map to_numeric_cell col)) with
  | Ret s => s
  | Raise _ => map (fun _ => Int 0) col
  end.

(** The column [c] of the catalog, from the raw column that stands for it. *)
Definition normalized (c : string) (col : list cell) : list cell :=
  if mem c ["barcode"; "id"] then map fillna_str col
  else if mem c ["stock"; "bulk_quantity"] then int_column col
  else if mem c ["price"; "purchase_price"; "bulk_price"]
       then map to_numeric_cell col
  else col.

(** The typing of the columns, one column per label. *)
Definition typed (df : DataFrame) : DataFrame :=
  map_named "bulk_quantity" int_column
    (map_named "bulk_price" (map to_numeric_cell)
       (map_named "purchase_price" (map to_numeric_cell)
          (map_named "price" (map to_numeric_cell)
             (map_named "stock" int_column
                (map_named "id" (map fillna_str)
                   (map_named "barcode" (map fillna_str) df)))))).

(** A cell as [dtype=str] reads it. *)
Definition rawlike (c : cell) : Prop := c = NaN \/ exists s, c = Str s.

Definition all_rawlike (df : DataFrame) : Prop :=
  forall kc, In kc (columns df) -> Forall rawlike (snd kc).


Definition is_int (c : cell) : Prop := exists z, c = Int z.
Definition is_number_or_nan (c : cell) : Prop :=
  c = NaN \/ exists f, c = Num f /\ PrimFloat.is_nan f = false.
Definition is_str (c : cell) : Prop := exists s, c = Str s.

End Load.

End Sheet.

(** ** Picking the products sheet *)

Definition PRODUCT_SHEET_PREFERRED : string := "products".

(** [detect_product_sheet]: [xls] is what opening the workbook and asking
    for its sheet names gives. *)
Definition detect_product_sheet (xls : outcome (list string)) : string :=
  match xls with
  | Ret sheet_names =>
      let candidates := [PRODUCT_SHEET_PREFERRED; "商品信息"; "products"] in
      match find (fun c => Sheet.mem c sheet_names) candidates with
      | Some c => c
      | None =>
          match sheet_names with
          | s :: _ => s
          | [] => PRODUCT_SHEET_PREFERRED
          end
      end
  | Raise _ => PRODUCT_SHEET_PREFERRED
  end.

(** ** Writing the products sheet, column by column *)

Module SheetWrite.

Import Sheet.

Definition REVERSE_COLUMN_MAP : list (string * string) :=
  map (fun kv => (snd kv, fst kv)) COLUMN_MAP.

Fixpoint unique_labels (l : list string) : bool :=
  match l with
  | [] => true
  | x :: l' => negb (mem x l') && unique_labels l'
  end.

(** [df.reindex(columns=cols)]: the columns named, in that order; a column
    the frame does not have is filled with NaN, a column that is not named
    is dropped.  pandas refuses a frame whose labels repeat. *)
Definition reindex (cols : list string) (df : DataFrame) : outcome DataFrame :=
  if unique_labels (labels df) then
    Ret (mkFrame (index df)
           (map (fun c => (c, match getitem c df with
                              | s :: _ => s
                              | [] => repeat NaN (index df)
                              end)) cols))
  else Raise (ValueError "cannot reindex on an axis with duplicate labels").

(** The frame [save_products] hands to the writer: the localized headers, in
    their fixed order. *)
Definition to_save (df : DataFrame) : outcome DataFrame :=
  reindex CHINESE_HEADERS_ORDER (rename REVERSE_COLUMN_MAP df).

End SheetWrite.

(** ** The pages *)

(** [float(x) * int(qty)]: the integer is converted to a float first
    (Streamlit's integer inputs stay below 2^53, where this is exact). *)
Definition float_of_int (z : Z) : float :=
  if (0 <=? z)%Z then PrimFloat.of_uint63 (Uint63.of_Z z)
  else (- PrimFloat.of_uint63 (Uint63.of_Z (- z)))%float.

(** The cart line built from a catalog row.  A missing price is NaN in the
    row, which is not [None], so it is taken as it is. *)
Definition cart_item (row : Product) (qty : Z) : LineItem :=
  let p := match price row with Some f => f | None => PrimFloat.nan end in
  mkItem (id row) (barcode row) (name row) p qty (p * float_of_int qty)%float.

(** [tx.tail(n).iloc[::-1]]: the last [n] rows, newest first. *)
Definition tail {A} (n : nat) (l : list A) : list A :=
  skipn (length l - n) l.

Definition recent {A} (n : nat) (l : list A) : list A := rev (tail n l).

(** [str(df_bar.iloc[0]["barcode"])]. *)
Definition row_barcode (row : Product) : string := barcode row.

Section Pages.

Variable RAPIDFUZZ_AVAILABLE : bool.
Variable str_contains : string -> string -> bool.
Variable extract : string -> list string -> Z -> list match_result.
Variable uuid4 : nat -> string.
Variable clock : nat -> string.

(** The row a scan or a typed name resolves to: the exact barcode first,
    then the name with [limit]. *)
Definition resolve (input : string) (products : list Product) (limit : Z)
  : list Product :=
  match search_by_barcode input products with
  | (_ :: _) as df_bar => df_bar
  | [] => search_by_name RAPIDFUZZ_AVAILABLE str_contains extract input
            products limit
  end.

(** The "add to cart" button of the POS page; [true] when a line was
    added. *)
Definition add_to_cart (barcode_input : string) (qty : Z) : M bool :=
  if String.eqb (strip barcode_input) "" then ret false
  else
    products <- load_products ;;
    match resolve barcode_input products 1 with
    | row :: _ =>
        c <- get_cart ;;
        put_cart (c ++ [cart_item row qty]) ;;;
        ret true
    | [] => ret false
    end.

(** The "clear cart" button. *)
Definition clear_cart : M unit := put_cart [].

(** The query page: what is shown for [q]. *)
Definition query_page (q : string) : M (list Product) :=
  products <- load_products ;;
  ret (resolve q products 10).

(** The form of the warehouse page. *)
Definition stock_form (action barcode name : string) (qty : Z)
    (operator note : string) : M (bool * string) :=
  products <- load_products ;;
  let df_bar :=
    if negb (String.eqb (strip barcode) "")
    then search_by_barcode barcode products else [] in
  let df_bar :=
    if (length df_bar =? 0)%nat && negb (String.eqb (strip name) "") then
      match search_by_name RAPIDFUZZ_AVAILABLE str_contains extract name
              products 1 with
      | (_ :: _) as df_name => df_name
      | [] => df_bar
      end
    else df_bar in
  match df_bar with
  | [] => ret (false, "未找到商品，请先在商品维护中新增条目（或填写正确条码/名称）。")
  | row :: _ =>
      let b := row_barcode row in
      let delta_typ :=
        if String.eqb action "入库" then (qty, "in")
        else if String.eqb action "出库" then ((- qty)%Z, "out")
        else (qty, "adjust") in
      update_stock_by_barcode uuid4 clock b (fst delta_typ) operator
        (snd delta_typ) note
  end.

(** The "load product" button of the maintenance page: the row the edit
    form is filled from. *)
Definition load_for_edit (e_barcode : string) : M (option Product) :=
  products <- load_products ;;
  let df_e :=
    if negb (String.eqb (strip e_barcode) "")
    then search_by_barcode e_barcode products else [] in
  ret (List.hd_error df_e).

(** The list of recent transactions on the POS page. *)
Definition recent_transactions : M (list Transaction) :=
  s <- get_store ;;
  ret (recent 10 (transactions s)).

(** What a session does, one user action at a time. *)
Inductive command :=
| AddToCart (barcode_input : string) (qty : Z)
| ClearCart
| Checkout (paid : float)
| StockForm (action barcode name : string) (qty : Z) (operator note : string)
| AddProduct (name barcode category : string)
    (price purchase_price bulk_price : float) (bulk_quantity : Z)
    (location : string) (stock : Z) (notes : string)
| UpdateProduct (e_barcode name2 category2 : string)
    (price2 purchase_price2 bulk_price2 : float) (bulk_quantity2 : Z)
    (location2 : string) (stock2 : Z) (notes2 : string)
| DeleteProduct (e_barcode : string).

(** The world an action leaves, whether it returned or raised. *)
Definition step (w : World) (c : command) : World :=
  match c with
  | AddToCart i q => fst (add_to_cart i q w)
  | ClearCart => fst (clear_cart w)
  | Checkout p => fst (checkout uuid4 clock p w)
  | StockForm a b n q o t => fst (stock_form a b n q o t w)
  | AddProduct n b c p pp bp bq l s t =>
      fst (add_product uuid4 clock n b c p pp bp bq l s t w)
  | UpdateProduct e n c p pp bp bq l s t =>
      fst (update_product uuid4 clock e n c p pp bp bq l s t w)
  | DeleteProduct e => fst (delete_product e w)
  end.

Definition session (cmds : list command) (w : World) : World :=
  fold_left step cmds w.

End Pages.

(** ** Sample data *)

(** The two seed rows [ensure_inventory_file] writes, as they are read back. *)
Definition seed_water : Product :=
  mkProduct (Some "饮料") "seed-1" (Some "矿泉水 500ml") "6901234567890"
    (Some 20%float) 24 (Some 1%float) (Some 2.5%float) None 50
    (Some "货架 A1") None None None None.

Definition seed_noodles : Product :=
  mkProduct (Some "食品") "seed-2" (Some "方便面") "6909876543210"
    (Some 30%float) 20 (Some 1.5%float) (Some 4%float) None 30
    (Some "货架 B2") None None None None.

Definition seed_catalog : list Product := [seed_water; seed_noodles].

Definition seed_world : World := mkWorld (mkStore seed_catalog [] []) [] 0.

(** A sample identifier source and clock. *)
Definition sample_uuid4 (n : nat) : string :=
  String (ascii_of_nat (97 + n)) "-uuid".
Definition sample_clock (n : nat) : string := "2024-01-01 09:00:00".


(** A catalog in which two rows carry the barcode "A". *)
Definition twin_a1 : Product :=
  mkProduct None "p1" (Some "apple") "A" None 0 None (Some 2.5%float) None 50
    None None None None None.
Definition twin_a2 : Product :=
  mkProduct None "p2" (Some "apple") "A" None 0 None (Some 3%float) None 7
    None None None None None.
Definition twin_catalog : list Product := [twin_a1; twin_a2].

(** A sample reading of numbers: unsigned decimal integers and "inf". *)
Fixpoint digits_value (s : string) (acc : Z) : option Z :=
  match s with
  | EmptyString => Some acc
  | String c s' =>
      let n := nat_of_ascii c in
      if ((48 <=? n)%nat && (n <=? 57)%nat)
      then digits_value s' (10 * acc + Z.of_nat (n - 48))
      else None
  end.

Definition sample_to_numeric (s : string) : option float :=
  if String.eqb s "inf" then Some PrimFloat.infinity
  else if String.eqb s "" then None
  else option_map (fun z => PrimFloat.of_uint63 (Uint63.of_Z z))
         (digits_value s 0).



(** ** Vocabulary of the statements *)

Definition not_found_msg : string := "未找到条码对应商品".

Definition at_row_error : exn :=
  TypeError "_get_value() missing 1 required positional argument: 'col'".

(** A row with the barcode [b] is absent from the catalog of [w]. *)
Definition absent (b : string) (w : World) : Prop :=
  forall p, In p (products (store w)) -> barcode p <> b.

(** The world after a stock update that found its row: the first matching
    row carries the new stock, the sheet is in persisted form, one identifier
    was drawn, and the logs are as before. *)
Definition stock_written (w : World) (pre : list Product) (p : Product)
    (post : list Product) (delta : Z) : World :=
  mkWorld
    (mkStore (map persisted (pre ++ with_stock p (stock p + delta) :: post))
       (transactions (store w)) (stock_log (store w)))
    (cart w) (S (tick w)).

(** The message the checkout loop records for a line whose row is missing. *)
Definition fail_msg (it : LineItem) : string :=
  (astype_str (item_name it) ++ ": " ++ not_found_msg)%string.

(** The invariant of stock-log entries. *)
Definition log_ok (e : StockLogEntry) : Prop :=
  after_stock e = (before_stock e + log_change e)%Z.


Definition water_line : LineItem :=
  mkItem "seed-1" "6901234567890" (Some "矿泉水 500ml") 2.5%float 2 5%float.

(** The checkout example of the specification: one row with barcode "A",
    price 2.5 and stock 50; a cart with two of it; 10.0 paid. *)
Definition product_a : Product :=
  mkProduct None "p-a" (Some "A-item") "A" None 0 None (Some 2.5%float) None
    50 None None None None None.
Definition line_a : LineItem :=
  mkItem "p-a" "A" (Some "A-item") 2.5%float 2 5%float.
Definition spec_example : World :=
  mkWorld (mkStore [product_a] [] []) [line_a] 0.

Definition twin_world : World := mkWorld (mkStore twin_catalog [] []) [] 0.

(** ** Vocabulary of the further statements *)

(** The row [add_product] builds from the form. *)
Definition new_product (new_id name barcode category : string)
    (price purchase_price bulk_price : float) (bulk_quantity : Z)
    (location : string) (stock : Z) (notes : string) : Product :=
  mkProduct (Some (strip category)) new_id (Some (strip name)) (strip barcode)
    (of_float bulk_price) bulk_quantity (of_float purchase_price)
    (of_float price) None stock (Some (strip location)) (Some "") (Some "")
    (Some (strip notes)) (Some "").

(** The row [update_product] makes of the row it found. *)
Definition edited (p : Product) (name2 category2 : string)
    (price2 purchase_price2 bulk_price2 : float) (bulk_quantity2 : Z)
    (location2 : string) (stock2 : Z) (notes2 : string) : Product :=
  mkProduct (Some category2) (id p) (Some name2) (barcode p)
    (of_float bulk_price2) bulk_quantity2 (of_float purchase_price2)
    (of_float price2) (profit_margin p) stock2 (Some location2) (supplier p)
    (image_path p) (Some notes2) (expiry_date p).

(** The signed change and the log type the warehouse form derives from the
    chosen action. *)
Definition form_delta (action : string) (qty : Z) : Z :=
  if String.eqb action "入库" then qty
  else if String.eqb action "出库" then (- qty)%Z
  else qty.

Definition form_typ (action : string) : string :=
  if String.eqb action "入库" then "in"
  else if String.eqb action "出库" then "out"
  else "adjust".

Definition form_not_found : string :=
  "未找到商品，请先在商品维护中新增条目（或填写正确条码/名称）。".

(** The sheet is as [save_products] writes it. *)
Definition written_form (w : World) : Prop :=
  map persisted (products (store w)) = products (store w).

(** The identifiers of the catalog are pairwise distinct and none of them
    is among the identifiers still to be drawn. *)
Definition ids_fresh (uuid4 : nat -> string) (w : World) : Prop :=
  NoDup (map id (products (store w))) /\
  forall n, (tick w <= n)%nat ->
            ~ In (uuid4 n) (map id (products (store w))).

(** A catalog and a cart for the examples. *)
Definition tea_row : Product :=
  mkProduct (Some "drinks") "t-1" (Some "green tea") "4711" None 0 None
    (Some 3%float) None 5 None None None None None.

Definition nameless_row : Product :=
  mkProduct None "n-1" (Some "plain bag") "" None 0 None None None 9 None None
    None None None.

Definition shop : World :=
  mkWorld (mkStore [seed_water; seed_noodles; tea_row; nameless_row] [] [])
    [] 0.

(** An identifier source that never repeats. *)
Fixpoint tally_uuid4 (n : nat) : string :=
  match n with
  | O => "-uuid"
  | S n' => String "x" (tally_uuid4 n')
  end.

(** A sheet with a stock cell that reads as an infinity, and a sheet with a
    column the program does not know. *)
Definition overflow_sheet : Sheet.RawFrame :=
  Sheet.mkRaw 3
    [ ("barcode", [Some "1"; Some "2"; Some "3"]);
      ("stock", [Some "50"; Some "inf"; Some "7"]) ].

Definition custom_sheet : Sheet.RawFrame :=
  Sheet.mkRaw 1
    [ ("条形码", [Some "1"]); ("shelf life", [Some "long"]);
      ("库存", [Some "4"]) ].

(** A frame under internal labels with an expiry date. *)
Definition dated_frame : Sheet.DataFrame :=
  Sheet.mkFrame 1
    [ ("barcode", [Sheet.Str "1"]); ("stock", [Sheet.Int 4]);
      ("expiry_date", [Sheet.Str "2025-01-01"]) ].

(** * Properties *)

(** ** Lists, rows and the persisted form *)

Lemma index_where_none {A} (f : A -> bool) (l : list A) (k : nat) :
  (forall x, In x l -> f x = false) -> index_where f l k = [].
Proof.
  revert k; induction l as [|x l IH]; intros k H; simpl; [reflexivity|].
  rewrite (H x (or_introl eq_refl)). apply IH. intros y Hy. apply H. now right.
Qed.

Lemma barcode_is_true b p : barcode_is b p = true <-> barcode p = b.
Proof. unfold barcode_is. apply String.eqb_eq. Qed.

Lemma barcode_is_false b p : barcode_is b p = false <-> barcode p <> b.
Proof. unfold barcode_is. apply String.eqb_neq. Qed.

Lemma reread_idem x : reread (reread x) = reread x.
Proof.
  destruct x as [s|]; simpl; [|reflexivity].
  destruct (String.eqb s "") eqn:E; simpl; [reflexivity|]. now rewrite E.
Qed.

Lemma persisted_idem p : persisted (persisted p) = persisted p.
Proof. unfold persisted; simpl. now rewrite !reread_idem. Qed.

Lemma persisted_barcode p : barcode (persisted p) = barcode p.
Proof. reflexivity. Qed.

Lemma persisted_stock p : stock (persisted p) = stock p.
Proof. reflexivity. Qed.


Lemma map_persisted_idem l : map persisted (map persisted l) = map persisted l.
Proof. rewrite map_map. apply map_ext. intros; apply persisted_idem. Qed.



(** ** Barcode lookup *)





(** ** The first matching row *)

Lemma index_where_first {A} (f : A -> bool) pre x post k :
  (forall y, In y pre -> f y = false) -> f x = true ->
  index_where f (pre ++ x :: post) k =
  (k + length pre)%nat :: index_where f post (S (k + length pre)).
Proof.
  revert k; induction pre as [|y pre IH]; intros k Hpre Hx; simpl.
  - rewrite Hx, Nat.add_0_r. reflexivity.
  - rewrite (Hpre y (or_introl eq_refl)), IH; auto.
    + now rewrite <- !plus_n_Sm.
    + intros z Hz. apply Hpre. now right.
Qed.

Lemma nth_error_middle {A} (pre : list A) x post :
  nth_error (pre ++ x :: post) (length pre) = Some x.
Proof. induction pre; simpl; auto. Qed.

Lemma set_row_middle {A} (g : A -> A) pre x post :
  set_row (length pre) g (pre ++ x :: post) = pre ++ g x :: post.
Proof. induction pre; simpl; congruence. Qed.

(** Either no row satisfies [f], or the list splits at its first such row. *)
Lemma first_match_split {A} (f : A -> bool) (l : list A) :
  (forall x, In x l -> f x = false) \/
  (exists pre x post, l = pre ++ x :: post /\
                      (forall y, In y pre -> f y = false) /\ f x = true).
Proof.
  induction l as [|a l IH].
  - left. intros x [].
  - destruct (f a) eqn:E.
    + right. exists [], a, l. repeat split; auto. intros y [].
    + destruct IH as [IH|(pre & x & post & -> & Hpre & Hx)].
      * left. intros x [<-|Hx]; auto.
      * right. exists (a :: pre), x, post. repeat split; auto.
        intros y [<-|Hy]; auto.
Qed.

(** ** Stock mutator *)

Lemma absent_index b w :
  absent b w -> index_where (barcode_is b) (products (store w)) 0 = [].
Proof.
  intros H. apply index_where_none. intros p Hp.
  apply barcode_is_false. now apply H.
Qed.

Lemma update_stock_absent uuid4 clock b delta operator typ note w :
  absent b w ->
  update_stock_by_barcode uuid4 clock b delta operator typ note w =
  (w, Ret (false, not_found_msg)).
Proof.
  intros H. unfold update_stock_by_barcode, bind, load_products, datetime_now.
  simpl. rewrite (absent_index _ _ H). reflexivity.
Qed.

Lemma update_stock_present uuid4 clock b delta operator typ note w pre p post :
  products (store w) = pre ++ p :: post ->
  (forall y, In y pre -> barcode y <> b) -> barcode p = b ->
  update_stock_by_barcode uuid4 clock b delta operator typ note w =
  (stock_written w pre p post delta, Raise at_row_error).
Proof.
  intros Hl Hpre Hp.
  unfold update_stock_by_barcode, bind, load_products, datetime_now. simpl.
  rewrite Hl, index_where_first.
  - simpl. rewrite nth_error_middle, set_row_middle. reflexivity.
  - intros y Hy. apply barcode_is_false. auto.
  - now apply barcode_is_true.
Qed.

(** C5: when no catalog row has exactly the given barcode,
    [update_stock_by_barcode] reports the failure "product not found" and
    changes nothing: the catalog is not written, no stock-log entry and no
    transaction is appended, the cart and the identifier source are as
    before. *)
Theorem update_stock_not_found_no_change :
  forall uuid4 clock b delta operator typ note w,
    (forall p, In p (products (store w)) -> barcode p <> b) ->
    update_stock_by_barcode uuid4 clock b delta operator typ note w =
    (w, Ret (false, "未找到条码对应商品")).
Proof.
  intros. now apply update_stock_absent.
Qed.

Lemma update_stock_not_found_no_change_witness :
  update_stock_by_barcode sample_uuid4 sample_clock "0000" (-3)
    "收银" "sale" "POS 结账" seed_world =
  (seed_world, Ret (false, "未找到条码对应商品")).
Proof.
  apply (update_stock_not_found_no_change sample_uuid4 sample_clock "0000"
           (-3) "收银" "sale" "POS 结账" seed_world).
  intros p [<-|[<-|[]]]; discriminate.
Defined.

(** ** Deleting rows *)



(** ** Checkout *)

Lemma checkout_loop_all_absent uuid4 clock lines success messages w :
  (forall x, In x lines -> absent (item_barcode x) w) ->
  checkout_loop uuid4 clock lines success messages w =
  (w, Ret (match lines with [] => success | _ :: _ => false end,
           messages ++ map fail_msg lines)).
Proof.
  revert success messages.
  induction lines as [|it rest IH]; intros success messages H; simpl.
  - now rewrite app_nil_r.
  - unfold bind. rewrite update_stock_absent by (apply H; now left). simpl.
    rewrite IH by (intros x Hx; apply H; now right).
    rewrite <- app_assoc. simpl. now destruct rest.
Qed.

Lemma checkout_loop_first_present uuid4 clock l1 it l2 success messages w
      pre p post :
  (forall x, In x l1 -> absent (item_barcode x) w) ->
  products (store w) = pre ++ p :: post ->
  (forall y, In y pre -> barcode y <> item_barcode it) ->
  barcode p = item_barcode it ->
  checkout_loop uuid4 clock (l1 ++ it :: l2) success messages w =
  (stock_written w pre p post (- qty it), Raise at_row_error).
Proof.
  revert success messages.
  induction l1 as [|x l1 IH]; intros success messages H Hl Hpre Hp; simpl.
  - unfold bind. now rewrite (update_stock_present _ _ _ _ _ _ _ _ pre p post).
  - unfold bind. rewrite update_stock_absent by (apply H; now left). simpl.
    apply IH; auto. intros y Hy. apply H. now right.
Qed.

(** A line's barcode is either absent from the catalog or splits the catalog
    at its first row. *)
Lemma absent_or_first b w :
  absent b w \/
  (exists pre p post, products (store w) = pre ++ p :: post /\
                      (forall y, In y pre -> barcode y <> b) /\ barcode p = b).
Proof.
  destruct (first_match_split (barcode_is b) (products (store w)))
    as [H|(pre & p & post & Hl & Hpre & Hp)].
  - left. intros q Hq. apply barcode_is_false. auto.
  - right. exists pre, p, post. repeat split; auto.
    + intros y Hy. apply barcode_is_false. auto.
    + now apply barcode_is_true.
Qed.

(** The cart either has only lines whose barcode is absent, or splits at the
    first line whose barcode is in the catalog. *)
Lemma cart_split (lines : list LineItem) w :
  (forall x, In x lines -> absent (item_barcode x) w) \/
  (exists l1 it l2 pre p post,
     lines = l1 ++ it :: l2 /\
     (forall x, In x l1 -> absent (item_barcode x) w) /\
     products (store w) = pre ++ p :: post /\
     (forall y, In y pre -> barcode y <> item_barcode it) /\
     barcode p = item_barcode it).
Proof.
  induction lines as [|it rest IH].
  - left. intros x [].
  - destruct (absent_or_first (item_barcode it) w)
      as [Ha|(pre & p & post & Hl & Hpre & Hp)].
    + destruct IH as [IH|(l1 & it' & l2 & pre & p & post & -> & H1 & H2 & H3 & H4)].
      * left. intros x [<-|Hx]; auto.
      * right. exists (it :: l1), it', l2, pre, p, post. repeat split; auto.
        intros x [<-|Hx]; auto.
    + right. exists [], it, rest, pre, p, post. repeat split; auto.
      intros x [].
Qed.

Lemma checkout_all_absent uuid4 clock paid w :
  cart w <> [] ->
  (forall x, In x (cart w) -> absent (item_barcode x) w) ->
  checkout uuid4 clock paid w =
  (w, Ret (PartiallyFailed (map fail_msg (cart w)))).
Proof.
  intros Hne H. unfold checkout, bind, get_cart. simpl.
  destruct (cart w) as [|it rest] eqn:E; [congruence|].
  rewrite checkout_loop_all_absent by exact H. reflexivity.
Qed.

Lemma checkout_first_present uuid4 clock paid w l1 it l2 pre p post :
  cart w = l1 ++ it :: l2 ->
  (forall x, In x l1 -> absent (item_barcode x) w) ->
  products (store w) = pre ++ p :: post ->
  (forall y, In y pre -> barcode y <> item_barcode it) ->
  barcode p = item_barcode it ->
  checkout uuid4 clock paid w =
  (stock_written w pre p post (- qty it), Raise at_row_error).
Proof.
  intros Hc H1 Hl Hpre Hp. unfold checkout, bind, get_cart. simpl.
  destruct (cart w) as [|it0 rest] eqn:E.
  - destruct l1; discriminate.
  - rewrite Hc.
    now rewrite (checkout_loop_first_present _ _ _ _ _ _ _ _ pre p post).
Qed.




(** With a cart that is not empty, checkout never completes: either every
    line fails and the messages come back, or the first line whose row is
    found raises after its stock was written.  No transaction is appended
    and the cart stays. *)
Lemma checkout_never_completes uuid4 clock paid w :
  cart w <> [] ->
  (forall txn, snd (checkout uuid4 clock paid w) <> Ret (Completed txn)) /\
  transactions (store (fst (checkout uuid4 clock paid w))) =
    transactions (store w) /\
  cart (fst (checkout uuid4 clock paid w)) = cart w.
Proof.
  intros Hne.
  destruct (cart_split (cart w) w)
    as [H|(l1 & it & l2 & pre & p & post & Hc & H1 & Hl & Hpre & Hp)].
  - rewrite checkout_all_absent by assumption. repeat split. discriminate.
  - rewrite (checkout_first_present _ _ _ _ l1 it l2 pre p post) by assumption.
    repeat split. discriminate.
Qed.

(** C6, on the example of the specification (one row "A" at 2.5 with stock
    50, a cart with two of it, 10.0 paid): the decrement to 48 is written,
    then reading the row's name with [df.at[i]] raises, so the adjustment
    does not report success: no stock-log entry and no transaction is
    appended and the cart is not cleared. *)
Theorem checkout_spec_example_raises : forall uuid4 clock,
  checkout uuid4 clock 10 spec_example =
  (mkWorld (mkStore [with_stock product_a 48] [] []) [line_a] 1,
   Raise at_row_error).
Proof. intros. reflexivity. Qed.

(** C10, on a catalog whose two rows share the barcode "A": the first row's
    stock goes from 50 to 49 and the second row is untouched, but reading
    the row's name with [df.at[i]] raises before [append_stock_log], so no
    stock-log entry is appended. *)
Theorem update_stock_twin_barcode_raises : forall uuid4 clock,
  update_stock_by_barcode uuid4 clock "A" (-1) "仓库" "out" "" twin_world =
  (mkWorld (mkStore [with_stock twin_a1 49; twin_a2] [] []) [] 1,
   Raise at_row_error).
Proof. intros. reflexivity. Qed.

(** ** The stock log *)

Lemma nth_error_set_row_other {A} (g : A -> A) (l : list A) i j :
  i <> j -> nth_error (set_row i g l) j = nth_error l j.
Proof.
  revert i j; induction l as [|x l IH]; intros [|i] [|j] H; simpl; auto;
    try congruence.
Qed.

(** Frame of a stock update: every row but the first matching one is written
    back as it was read, later rows with the same barcode included. *)
Lemma update_stock_frame uuid4 clock b delta operator typ note w pre p post j :
  products (store w) = pre ++ p :: post ->
  (forall y, In y pre -> barcode y <> b) -> barcode p = b ->
  j <> length pre ->
  nth_error (products (store (fst (update_stock_by_barcode uuid4 clock b delta
                                     operator typ note w)))) j =
  option_map persisted (nth_error (products (store w)) j).
Proof.
  intros Hl Hpre Hp Hj.
  rewrite (update_stock_present _ _ _ _ _ _ _ _ pre p post) by assumption.
  simpl. rewrite Hl, nth_error_map. f_equal.
  rewrite <- (set_row_middle (fun q => with_stock q (stock q + delta)) pre p post).
  apply nth_error_set_row_other. congruence.
Qed.







(** ** Adding a product *)

Lemma persisted_id p : id (persisted p) = id p.
Proof. reflexivity. Qed.




(** ** Name lookup *)

Lemma head_nil {A} n : head n (@nil A) = [].
Proof. unfold head. destruct (0 <=? n)%Z; now rewrite firstn_nil. Qed.

Lemma head_length {A} n (l : list A) :
  (0 <= n)%Z -> (length (head n l) <= Z.to_nat n)%nat.
Proof.
  intros H. unfold head. apply Z.leb_le in H. rewrite H.
  rewrite length_firstn. lia.
Qed.

(** The substring branch keeps to the limit. *)
Lemma search_by_name_substring_bound avail str_contains extract q df limit :
  (0 <= limit)%Z ->
  filter (fun p => str_contains (strip q) (astype_str (name p))) df <> []
  \/ avail = false ->
  (length (search_by_name avail str_contains extract q df limit)
   <= Z.to_nat limit)%nat.
Proof.
  intros Hl H. unfold search_by_name.
  destruct (String.length (strip q) =? 0)%nat; [simpl; lia|].
  set (subs := filter _ df) in *.
  destruct ((1 <=? length subs)%nat || negb avail) eqn:E.
  - now apply head_length.
  - apply orb_false_iff in E as [E1 E2]. destruct H as [H|H].
    + destruct subs; [congruence | discriminate E1].
    + subst avail. discriminate E2.
Qed.

(** The similarity ranking is consulted only when there is no substring
    match and [rapidfuzz] is available: otherwise the result does not depend
    on the extractor. *)
Lemma search_by_name_fuzzy_gate avail str_contains ex1 ex2 q df limit :
  filter (fun p => str_contains (strip q) (astype_str (name p))) df <> []
  \/ avail = false ->
  search_by_name avail str_contains ex1 q df limit =
  search_by_name avail str_contains ex2 q df limit.
Proof.
  intros H. unfold search_by_name.
  destruct (String.length (strip q) =? 0)%nat; [reflexivity|].
  set (subs := filter _ df) in *.
  destruct ((1 <=? length subs)%nat || negb avail) eqn:E; [reflexivity|].
  apply orb_false_iff in E as [E1 E2]. destruct H as [H|H].
  - destruct subs; [congruence | discriminate E1].
  - subst avail. discriminate E2.
Qed.

(** No substring match and no [rapidfuzz]: the result is empty. *)
Lemma search_by_name_no_fuzzy_empty str_contains extract q df limit :
  filter (fun p => str_contains (strip q) (astype_str (name p))) df = [] ->
  search_by_name false str_contains extract q df limit = [].
Proof.
  intros H. unfold search_by_name.
  destruct (String.length (strip q) =? 0)%nat; [reflexivity|].
  rewrite H. simpl. apply head_nil.
Qed.

Lemma in_firstn {A} (x : A) n l : In x (firstn n l) -> In x l.
Proof.
  revert l; induction n as [|n IH]; intros [|y l] H; simpl in H; try easy.
  destruct H as [<-|H]; [now left | right; auto].
Qed.

Lemma enumerate_nth l i r :
  In r (enumerate l i) ->
  exists k, snd r = (i + k)%nat /\ nth_error l k = Some (fst (fst r)).
Proof.
  revert i; induction l as [|x l IH]; intros i H; simpl in H; [destruct H|].
  destruct H as [<-|H].
  - exists 0%nat. simpl. split; [lia | reflexivity].
  - destruct (IH _ H) as (k & H1 & H2). exists (S k). split; [lia | exact H2].
Qed.

Lemma sample_extract_contract : extract_contract sample_extract.
Proof.
  intros query choices limit. unfold sample_extract. split; [|split].
  - intros r Hr. apply in_firstn in Hr.
    destruct (enumerate_nth _ _ _ Hr) as (k & H1 & H2). now rewrite H1.
  - intros Hl Hc. destruct choices as [|c cs]; [congruence|].
    destruct (Z.to_nat limit) eqn:E; [lia|]. simpl. discriminate.
  - intros _. rewrite length_firstn. lia.
Qed.

(** C3, on a catalog with two rows named "apple", the query "aple" and the
    limit 1: nothing contains the query, so the similarity ranking is used;
    it is asked for one result and names "apple"; both rows carry that name
    and both are returned, one more than the limit. *)
Theorem search_by_name_fuzzy_exceeds_limit : forall str_contains extract,
  str_contains "aple" "apple" = false ->
  extract_contract extract ->
  search_by_name true str_contains extract "aple" twin_catalog 1 =
  [twin_a1; twin_a2].
Proof.
  intros str_contains extract Hc He. unfold search_by_name.
  change (strip "aple") with "aple". simpl. rewrite Hc. simpl.
  destruct (He "aple" ["apple"; "apple"] 1%Z) as (Hin & Hne & _).
  destruct (extract "aple" ["apple"; "apple"] 1%Z) as [|r rs] eqn:E.
  - exfalso. apply Hne; [lia | discriminate | reflexivity].
  - assert (Hr : fst (fst r) = "apple").
    { specialize (Hin r (or_introl eq_refl)).
      destruct (snd r) as [|[|n]]; simpl in Hin.
      - now injection Hin.
      - now injection Hin.
      - destruct n; discriminate. }
    simpl. rewrite Hr. reflexivity.
Qed.

Lemma search_by_name_fuzzy_exceeds_limit_witness :
  search_by_name true literal_contains sample_extract "aple" twin_catalog 1 =
  [twin_a1; twin_a2].
Proof.
  apply (search_by_name_fuzzy_exceeds_limit literal_contains sample_extract).
  - reflexivity.
  - exact sample_extract_contract.
Defined.

(** ** Loading the products sheet *)

Section SheetFacts.

Import Sheet.

Variable to_numeric : string -> option float.

Lemma mem_In c l : mem c l = true <-> In c l.
Proof.
  unfold mem. rewrite existsb_exists. split.
  - intros (x & Hx & E). apply String.eqb_eq in E. now subst.
  - intros H. exists c. split; [assumption | apply String.eqb_refl].
Qed.

Lemma mem_not_In c l : mem c l = false <-> ~ In c l.
Proof.
  rewrite <- mem_In. destruct (mem c l); split; congruence.
Qed.

Lemma labels_map_named c f df : labels (map_named c f df) = labels df.
Proof.
  unfold labels, map_named. simpl. rewrite map_map. apply map_ext.
  intros kc. now destruct (String.eqb (fst kc) c).
Qed.

Lemma index_map_named c f df : index (map_named c f df) = index df.
Proof. reflexivity. Qed.

Lemma getitem_map_named c c' f df :
  getitem c (map_named c' f df) =
  if String.eqb c c' then map f (getitem c df) else getitem c df.
Proof.
  unfold getitem, map_named. simpl.
  induction (columns df) as [|[k col] l IH]; simpl.
  - now destruct (String.eqb c c').
  - destruct (String.eqb k c') eqn:E1; simpl.
    + apply String.eqb_eq in E1. subst k.
      rewrite (String.eqb_sym c' c).
      destruct (String.eqb c c') eqn:E2; simpl; now rewrite IH.
    + destruct (String.eqb k c) eqn:E2; simpl.
      * apply String.eqb_eq in E2. subst k.
        rewrite E1 in *. simpl. now rewrite IH.
      * rewrite IH. reflexivity.
Qed.

(** A label that occurs once selects one column. *)
Lemma getitem_unique c df :
  NoDup (labels df) -> In c (labels df) -> exists s, getitem c df = [s].
Proof.
  unfold labels, getitem.
  induction (columns df) as [|[k col] l IH]; simpl; intros ND Hin; [easy|].
  inversion ND as [|? ? Hk ND']; subst.
  destruct (String.eqb k c) eqn:E.
  - apply String.eqb_eq in E. subst k. exists col. simpl. f_equal.
    clear -Hk. induction l as [|[k' col'] l IH]; simpl in *; [reflexivity|].
    destruct (String.eqb k' c) eqn:E.
    + apply String.eqb_eq in E. subst. exfalso. apply Hk. now left.
    + apply IH. intros H. apply Hk. now right.
  - apply String.eqb_neq in E. destruct Hin as [Hin|Hin]; [congruence|].
    now apply IH.
Qed.

Lemma getitem_absent c df : ~ In c (labels df) -> getitem c df = [].
Proof.
  unfold labels, getitem.
  induction (columns df) as [|[k col] l IH]; simpl; intros H; [reflexivity|].
  destruct (String.eqb k c) eqn:E.
  - apply String.eqb_eq in E. subst. exfalso. apply H. now left.
  - apply IH. intros Hin. apply H. now right.
Qed.

(** Replacing the one column labelled [c] by a value computed from it is
    mapping the computation over the columns labelled [c]. *)
Lemma map_named_single c (g : list cell -> list cell) s df :
  getitem c df = [s] ->
  map_named c (fun _ => g s) df = map_named c g df.
Proof.
  unfold getitem, map_named. intros H. f_equal.
  induction (columns df) as [|[k col] l IH] in H |- *; simpl in *;
    [reflexivity|].
  destruct (String.eqb k c) eqn:E; simpl in H.
  - injection H as -> H. f_equal.
    clear IH. induction l as [|[k' col'] l IH]; simpl in *; [reflexivity|].
    destruct (String.eqb k' c); [discriminate|]. f_equal. now apply IH.
  - f_equal. now apply IH.
Qed.

Lemma numeric_int_unique c df :
  NoDup (labels df) -> In c (labels df) ->
  numeric_int to_numeric c df = map_named c (int_column to_numeric) df.
Proof.
  intros ND Hin. destruct (getitem_unique c df ND Hin) as [s Hs].
  unfold numeric_int. rewrite Hs. simpl.
  rewrite <- (map_named_single c (int_column to_numeric) s df Hs).
  unfold int_column.
  destruct (astype_int (map fillna_zero (map (to_numeric_cell to_numeric) s)))
    as [r|e]; [reflexivity|].
  symmetry. apply (map_named_single c (map (fun _ => Int 0)) s df Hs).
Qed.

Lemma numeric_float_unique c df :
  NoDup (labels df) -> In c (labels df) ->
  numeric_float to_numeric c df =
  Ret (map_named c (map (to_numeric_cell to_numeric)) df).
Proof.
  intros ND Hin. destruct (getitem_unique c df ND Hin) as [s Hs].
  unfold numeric_float. rewrite (proj2 (mem_In c (labels df)) Hin), Hs. simpl.
  now rewrite (map_named_single c (map (to_numeric_cell to_numeric)) s df Hs).
Qed.

(** *** The frame before the columns are typed *)

Lemma labels_of_raw raw : labels (of_raw raw) = map fst (raw_columns raw).
Proof. unfold labels, of_raw. simpl. now rewrite map_map. Qed.

Lemma labels_header_frame raw :
  labels (header_frame raw) =
  map (internal_label raw) (map fst (raw_columns raw)).
Proof.
  unfold header_frame, internal_label. rewrite labels_of_raw.
  destruct (existsb _ CHINESE_HEADERS_ORDER).
  - unfold labels, rename, of_raw. simpl. now rewrite !map_map.
  - rewrite map_id. apply labels_of_raw.
Qed.

Lemma index_header_frame raw : index (header_frame raw) = raw_index raw.
Proof.
  unfold header_frame. now destruct (existsb _ CHINESE_HEADERS_ORDER).
Qed.

Lemma getitem_header_frame raw c :
  getitem c (header_frame raw) = map (map of_cell) (source raw c).
Proof.
  unfold header_frame, source, internal_label, getitem. rewrite labels_of_raw.
  destruct (existsb _ CHINESE_HEADERS_ORDER); unfold rename, of_raw; simpl;
    induction (raw_columns raw) as [|[k col] l IH]; simpl; auto;
    match goal with |- context [String.eqb ?a c] => destruct (String.eqb a c) end;
    simpl; now rewrite IH.
Qed.

Lemma internal_columns_nodup : NoDup INTERNAL_COLUMNS.
Proof.
  unfold INTERNAL_COLUMNS, ENGLISH_HEADERS_ORDER, COLUMN_MAP. simpl.
  repeat (constructor; [simpl; intuition discriminate|]). constructor.
Qed.

Lemma fold_add_missing L df :
  NoDup L ->
  fold_left add_missing L df =
  mkFrame (index df)
    (columns df ++
     map (fun c => (c, repeat NaN (index df)))
       (filter (fun c => negb (mem c (labels df))) L)).
Proof.
  revert df. induction L as [|a L IH]; intros df ND; simpl.
  - rewrite app_nil_r. now destruct df.
  - inversion ND as [|? ? Ha ND']; subst.
    rewrite IH by assumption. unfold add_missing.
    destruct (mem a (labels df)) eqn:E; simpl; [reflexivity|].
    rewrite <- app_assoc. simpl. do 4 f_equal.
    apply filter_ext_in. intros c Hc. f_equal.
    unfold labels. simpl. rewrite map_app. simpl.
    unfold mem. rewrite existsb_app. simpl.
    destruct (String.eqb c a) eqn:E'; [|now rewrite !orb_false_r].
    apply String.eqb_eq in E'. subst. contradiction.
Qed.

Lemma index_completed df : index (completed df) = index df.
Proof. unfold completed. now rewrite fold_add_missing by apply internal_columns_nodup. Qed.

Lemma labels_fold_add_missing L df :
  NoDup L ->
  labels (fold_left add_missing L df) =
  labels df ++ filter (fun c => negb (mem c (labels df))) L.
Proof.
  intros NL. rewrite fold_add_missing by assumption.
  unfold labels. cbn [columns]. rewrite map_app, map_map. cbn [fst].
  now rewrite map_id.
Qed.

Lemma labels_completed df :
  labels (completed df) =
  labels df ++ filter (fun c => negb (mem c (labels df))) INTERNAL_COLUMNS.
Proof. apply labels_fold_add_missing, internal_columns_nodup. Qed.

Lemma completed_has c df : In c INTERNAL_COLUMNS -> In c (labels (completed df)).
Proof.
  intros H. rewrite labels_completed. apply in_or_app.
  destruct (mem c (labels df)) eqn:E.
  - left. now apply mem_In.
  - right. apply filter_In. split; [assumption|]. now rewrite E.
Qed.

Lemma completed_nodup df : NoDup (labels df) -> NoDup (labels (completed df)).
Proof.
  intros ND. rewrite labels_completed.
  assert (H : forall L, NoDup L ->
            NoDup (labels df ++ filter (fun c => negb (mem c (labels df))) L)).
  { induction L as [|a L IH]; intros NL; simpl.
    - now rewrite app_nil_r.
    - inversion NL as [|? ? Ha NL']; subst.
      destruct (mem a (labels df)) eqn:E; simpl; [now apply IH|].
      apply NoDup_Add with (a := a)
        (l := labels df ++ filter (fun c => negb (mem c (labels df))) L).
      + apply Add_app.
      + split; [now apply IH|].
        intros Hin. apply in_app_or in Hin as [Hin|Hin].
        * apply mem_In in Hin. congruence.
        * apply filter_In in Hin as [Hin _]. contradiction. }
  apply H, internal_columns_nodup.
Qed.

Lemma getitem_fold_add_missing c L df :
  NoDup L ->
  getitem c (fold_left add_missing L df) =
  getitem c df ++
  (if mem c (labels df) then []
   else if mem c L then [repeat NaN (index df)] else []).
Proof.
  intros NL. rewrite fold_add_missing by assumption.
  unfold getitem at 1. simpl. rewrite filter_app, map_app.
  fold (getitem c df). f_equal.
  induction L as [|a L IH]; simpl.
  - now destruct (mem c (labels df)).
  - inversion NL as [|? ? Ha NL']; subst. specialize (IH NL').
    rewrite (String.eqb_sym c a).
    destruct (mem a (labels df)) eqn:E1; simpl.
    + rewrite IH. destruct (String.eqb a c) eqn:E2; simpl; [|reflexivity].
      apply String.eqb_eq in E2. subst. now rewrite E1.
    + destruct (String.eqb a c) eqn:E2; simpl.
      * apply String.eqb_eq in E2. subst. rewrite E1 in *. rewrite IH.
        apply mem_not_In in Ha. now rewrite Ha.
      * apply IH.
Qed.

Lemma getitem_completed c df :
  In c INTERNAL_COLUMNS ->
  getitem c (completed df) =
  if mem c (labels df) then getitem c df else [repeat NaN (index df)].
Proof.
  intros Hc. unfold completed.
  rewrite getitem_fold_add_missing by apply internal_columns_nodup.
  rewrite (proj2 (mem_In c INTERNAL_COLUMNS) Hc).
  destruct (mem c (labels df)) eqn:E.
  - apply app_nil_r.
  - rewrite getitem_absent; [reflexivity|]. now apply mem_not_In.
Qed.

(** *** Typing the columns *)

Lemma in_internal_columns c :
  In c INTERNAL_COLUMNS <->
  In c ["category"; "id"; "name"; "barcode"; "bulk_price"; "bulk_quantity";
        "purchase_price"; "price"; "profit_margin"; "stock"; "location";
        "supplier"; "image_path"; "notes"; "expiry_date"].
Proof. reflexivity. Qed.

Ltac internal := apply in_internal_columns; cbn [In]; auto 20.

Lemma getitem_map_named_same c f df :
  getitem c (map_named c f df) = map f (getitem c df).
Proof. now rewrite getitem_map_named, String.eqb_refl. Qed.

Lemma getitem_map_named_other c c' f df :
  c <> c' -> getitem c (map_named c' f df) = getitem c df.
Proof.
  intros H. rewrite getitem_map_named.
  apply String.eqb_neq in H. now rewrite H.
Qed.

(** With every label occurring once, the typing runs to its end and types
    the columns one by one. *)
Lemma type_columns_unique df :
  NoDup (labels df) ->
  (forall c, In c INTERNAL_COLUMNS -> In c (labels df)) ->
  type_columns to_numeric df = Ret (typed to_numeric df).
Proof.
  intros ND H1. unfold type_columns, typed.
  rewrite (numeric_int_unique "stock")
    by (rewrite ?labels_map_named; first [exact ND | apply H1; internal]).
  rewrite (numeric_float_unique "price")
    by (rewrite ?labels_map_named; first [exact ND | apply H1; internal]).
  unfold obind at 1.
  rewrite (numeric_float_unique "purchase_price")
    by (rewrite ?labels_map_named; first [exact ND | apply H1; internal]).
  unfold obind at 1.
  rewrite (numeric_float_unique "bulk_price")
    by (rewrite ?labels_map_named; first [exact ND | apply H1; internal]).
  unfold obind at 1.
  rewrite (proj2 (mem_In "bulk_quantity" _))
    by (rewrite ?labels_map_named; apply H1; internal).
  rewrite (numeric_int_unique "bulk_quantity")
    by (rewrite ?labels_map_named; first [exact ND | apply H1; internal]).
  reflexivity.
Qed.

Lemma read_products_ret raw :
  read_products to_numeric (Ret raw) =
  match type_columns to_numeric (completed (header_frame raw)) with
  | Ret df => Ret df
  | Raise _ => Ret empty_catalog
  end.
Proof. reflexivity. Qed.

Lemma read_products_raise e :
  read_products to_numeric (Raise e) = Ret empty_catalog.
Proof. reflexivity. Qed.

Lemma read_products_unique raw :
  NoDup (labels (header_frame raw)) ->
  read_products to_numeric (Ret raw) =
  Ret (typed to_numeric (completed (header_frame raw))).
Proof.
  intros ND. rewrite read_products_ret.
  rewrite type_columns_unique; [reflexivity | now apply completed_nodup |].
  intros c Hc. now apply completed_has.
Qed.

Ltac pick_column :=
  repeat first
    [ rewrite getitem_map_named_same
    | rewrite getitem_map_named_other by discriminate ].

Lemma getitem_typed c df col :
  In c INTERNAL_COLUMNS -> getitem c df = [col] ->
  getitem c (typed to_numeric df) = [normalized to_numeric c col].
Proof.
  intros Hc H. unfold typed. vm_compute in Hc.
  repeat (destruct Hc as [<-|Hc]; [pick_column; rewrite H; reflexivity|]).
  destruct Hc.
Qed.

Lemma source_unique raw c :
  NoDup (labels (header_frame raw)) ->
  getitem c (header_frame raw) =
  if mem c (labels (header_frame raw))
  then [match source raw c with
        | col :: _ => map of_cell col
        | [] => repeat NaN (raw_index raw)
        end]
  else [].
Proof.
  intros ND. destruct (mem c (labels (header_frame raw))) eqn:E.
  - apply mem_In in E. destruct (getitem_unique c _ ND E) as [s Hs].
    rewrite Hs. rewrite getitem_header_frame in Hs.
    destruct (source raw c) as [|col rest]; [discriminate|].
    simpl in Hs. now injection Hs as -> _.
  - apply getitem_absent. now apply mem_not_In.
Qed.

(** *** Integer columns *)


Lemma astype_int_all_int s r : astype_int s = Ret r -> Forall is_int r.
Proof.
  revert r. induction s as [|a s IH]; intros r H; simpl in H.
  - injection H as <-. constructor.
  - destruct (astype_int_cell a) as [a'|] eqn:Ea; [|discriminate].
    simpl in H. destruct (astype_int s) as [r'|] eqn:Er; [|discriminate].
    simpl in H. injection H as <-. constructor; [|now apply IH].
    destruct a as [|x|f|z]; simpl in Ea; try discriminate.
    + destruct (float_to_int f); [|discriminate]. injection Ea as <-.
      now eexists.
    + injection Ea as <-. now eexists.
Qed.

Lemma int_column_all_int col : Forall is_int (int_column to_numeric col).
Proof.
  unfold int_column.
  destruct (astype_int _) as [r|e] eqn:E.
  - now apply astype_int_all_int in E.
  - apply Forall_forall. intros x Hx. apply in_map_iff in Hx as (y & <- & _).
    now exists 0%Z.
Qed.




(** *** Whatever the header *)

Lemma getitem_in c col df :
  In col (getitem c df) -> exists k, In (k, col) (columns df).
Proof.
  unfold getitem. intros H. apply in_map_iff in H as ([k x] & <- & H).
  apply filter_In in H as [H _]. now exists k.
Qed.

Lemma header_frame_rawlike raw : all_rawlike (header_frame raw).
Proof.
  assert (R : forall col : list (option string), Forall rawlike (map of_cell col)).
  { intros col. apply Forall_forall. intros x Hx.
    apply in_map_iff in Hx as ([s|] & <- & _); [right; now exists s | now left]. }
  unfold all_rawlike, header_frame.
  destruct (existsb _ CHINESE_HEADERS_ORDER); unfold rename, of_raw;
    cbn [columns]; intros kc Hk.
  - rewrite map_map in Hk. apply in_map_iff in Hk as (x & <- & _). apply R.
  - apply in_map_iff in Hk as (x & <- & _). apply R.
Qed.

Lemma add_missing_rawlike df c : all_rawlike df -> all_rawlike (add_missing df c).
Proof.
  intros H. unfold add_missing. destruct (mem c (labels df)); [exact H|].
  intros kc Hk. cbn [columns] in Hk. apply in_app_or in Hk as [Hk|Hk].
  - now apply H.
  - destruct Hk as [<-|[]]. cbn [snd].
    apply Forall_forall. intros x Hx. apply repeat_spec in Hx. now left.
Qed.

Lemma fold_add_missing_rawlike L df :
  all_rawlike df -> all_rawlike (fold_left add_missing L df).
Proof.
  revert df. induction L as [|a L IH]; intros df H; cbn [fold_left].
  - exact H.
  - apply IH. now apply add_missing_rawlike.
Qed.

Lemma completed_rawlike df : all_rawlike df -> all_rawlike (completed df).
Proof. apply fold_add_missing_rawlike. Qed.

Lemma numeric_int_shape c df :
  exists f, numeric_int to_numeric c df = map_named c f df /\
            forall col, Forall is_int (f col).
Proof.
  unfold numeric_int.
  destruct (obind _ _) as [s|e] eqn:E.
  - exists (fun _ => s). split; [reflexivity|]. intros _.
    unfold obind in E. destruct (to_numeric_series to_numeric _); [|discriminate].
    now apply astype_int_all_int in E.
  - eexists. split; [reflexivity|]. intros col.
    apply Forall_forall. intros x Hx. apply in_map_iff in Hx as (y & <- & _).
    now exists 0%Z.
Qed.

Lemma numeric_float_shape c df df' :
  In c (labels df) -> numeric_float to_numeric c df = Ret df' ->
  exists s, getitem c df = [s] /\
            df' = map_named c (fun _ => map (to_numeric_cell to_numeric) s) df.
Proof.
  intros Hin. unfold numeric_float.
  rewrite (proj2 (mem_In c (labels df)) Hin).
  unfold to_numeric_series.
  destruct (getitem c df) as [|s [|s' rest]]; cbn [obind]; try discriminate.
  intros H. injection H as <-. now exists s.
Qed.

Lemma tnc_rawlike col :
  Forall rawlike col ->
  Forall is_number_or_nan (map (to_numeric_cell to_numeric) col).
Proof.
  intros H. apply Forall_forall. intros x Hx.
  apply in_map_iff in Hx as (y & <- & Hy).
  rewrite Forall_forall in H. destruct (H y Hy) as [->|[s ->]]; cbn.
  - now left.
  - destruct (to_numeric s) as [f|]; [|now left].
    destruct (PrimFloat.is_nan f) eqn:E; [now left|]. right. now exists f.
Qed.

Lemma fillna_str_rawlike col :
  Forall rawlike col -> Forall is_str (map fillna_str col).
Proof.
  intros H. apply Forall_forall. intros x Hx.
  apply in_map_iff in Hx as (y & <- & Hy).
  rewrite Forall_forall in H. destruct (H y Hy) as [->|[s ->]]; cbn.
  - now exists "".
  - now exists s.
Qed.

(** The frame the typing returns, when it returns one, whatever the header:
    the labels are kept, the text of [barcode] and [id] is filled, [stock]
    and [bulk_quantity] hold integers and the prices numbers or NaN. *)
Lemma type_columns_shape df df' :
  (forall c, In c INTERNAL_COLUMNS -> In c (labels df)) ->
  all_rawlike df ->
  type_columns to_numeric df = Ret df' ->
  labels df' = labels df /\ index df' = index df /\
  (forall c col, In c ["barcode"; "id"] -> In col (getitem c df') ->
                 Forall is_str col) /\
  (forall c col, In c ["stock"; "bulk_quantity"] -> In col (getitem c df') ->
                 Forall is_int col) /\
  (forall c col, In c ["price"; "purchase_price"; "bulk_price"] ->
                 In col (getitem c df') -> Forall is_number_or_nan col).
Proof.
  intros H1 Hraw. unfold type_columns.
  destruct (numeric_int_shape "stock"
              (map_named "id" (map fillna_str)
                 (map_named "barcode" (map fillna_str) df))) as (f1 & -> & Hf1).
  destruct (numeric_float to_numeric "price" _) as [dfa|] eqn:Ea;
    cbn [obind]; [|discriminate].
  apply numeric_float_shape in Ea as (s2 & Hs2 & ->);
    [|rewrite ?labels_map_named; apply H1; internal].
  destruct (numeric_float to_numeric "purchase_price" _) as [dfb|] eqn:Eb;
    cbn [obind]; [|discriminate].
  apply numeric_float_shape in Eb as (s3 & Hs3 & ->);
    [|rewrite ?labels_map_named; apply H1; internal].
  destruct (numeric_float to_numeric "bulk_price" _) as [dfc|] eqn:Ec;
    cbn [obind]; [|discriminate].
  apply numeric_float_shape in Ec as (s4 & Hs4 & ->);
    [|rewrite ?labels_map_named; apply H1; internal].
  rewrite (proj2 (mem_In "bulk_quantity" _))
    by (rewrite ?labels_map_named; apply H1; internal).
  match goal with |- context [numeric_int to_numeric "bulk_quantity" ?d] =>
    destruct (numeric_int_shape "bulk_quantity" d) as (f5 & -> & Hf5) end.
  intros H. injection H as <-.
  revert Hs2 Hs3 Hs4. pick_column. intros Hs2 Hs3 Hs4.
  assert (R : forall c col, In col (getitem c df) -> Forall rawlike col).
  { intros c col Hc. destruct (getitem_in _ _ _ Hc) as [k Hk].
    apply (Hraw _ Hk). }
  split; [now rewrite !labels_map_named|]. split; [reflexivity|].
  split; [|split].
  - intros c col Hc Hcol. cbn [In] in Hc.
    destruct Hc as [<-|[<-|[]]]; revert Hcol; pick_column; intros Hcol;
      apply in_map_iff in Hcol as (col0 & <- & Hcol0);
      apply fillna_str_rawlike; eapply R; eauto.
  - intros c col Hc Hcol. cbn [In] in Hc.
    destruct Hc as [<-|[<-|[]]]; revert Hcol; pick_column; intros Hcol;
      apply in_map_iff in Hcol as (col0 & <- & Hcol0); auto.
  - intros c col Hc Hcol. cbn [In] in Hc.
    destruct Hc as [<-|[<-|[<-|[]]]]; revert Hcol; pick_column; intros Hcol;
      apply in_map_iff in Hcol as (col0 & <- & Hcol0);
      cbv beta; apply tnc_rawlike;
      first [ apply (R "price"); rewrite Hs2; now left
            | apply (R "purchase_price"); rewrite Hs3; now left
            | apply (R "bulk_price"); rewrite Hs4; now left ].
Qed.


Lemma labels_empty_catalog : labels empty_catalog = INTERNAL_COLUMNS.
Proof.
  unfold labels, empty_catalog. cbn [columns]. rewrite map_map. cbn [fst].
  apply map_id.
Qed.

Lemma index_typed df : index (typed to_numeric df) = index df.
Proof. reflexivity. Qed.


Lemma read_products_column raw c :
  NoDup (map (internal_label raw) (map fst (raw_columns raw))) ->
  In c INTERNAL_COLUMNS ->
  exists df,
    read_products to_numeric (Ret raw) = Ret df /\
    index df = raw_index raw /\
    getitem c df =
    [normalized to_numeric c
       match source raw c with
       | col :: _ => map of_cell col
       | [] => repeat NaN (raw_index raw)
       end].
Proof.
  intros ND Hc. rewrite <- labels_header_frame in ND.
  exists (typed to_numeric (completed (header_frame raw))).
  split; [now apply read_products_unique|]. split.
  - rewrite index_typed, index_completed. apply index_header_frame.
  - apply getitem_typed; [assumption|].
    rewrite getitem_completed by assumption.
    rewrite (source_unique raw c ND), index_header_frame.
    destruct (mem c (labels (header_frame raw))) eqn:E; [reflexivity|].
    apply mem_not_In, getitem_absent in E.
    rewrite getitem_header_frame in E.
    now destruct (source raw c).
Qed.


Lemma load_products_ensured present created file :
  ensure_inventory_file present created = Ret tt ->
  load_products to_numeric present created file =
  read_products to_numeric file.
Proof. intros H. unfold load_products. now rewrite H. Qed.

End SheetFacts.




(** One cell that reads as an infinity makes the cast of the whole column
    fail, and the [except] branch sets every stock to 0. *)
Lemma int_column_infinity :
  Sheet.int_column sample_to_numeric [Sheet.Str "50"; Sheet.Str "inf"] =
  [Sheet.Int 0; Sheet.Int 0].
Proof. vm_compute. reflexivity. Qed.

(** * Further properties *)

(** ** Picking the products sheet *)

(** X1: [detect_product_sheet] never fails and, when the workbook opens and has
    a sheet, names one of its sheets: "products" when there is one, else
    "商品信息" when there is one, else the first sheet.  When the workbook
    cannot be opened, or has no sheet, it answers "products". *)
Theorem detect_product_sheet_names_a_sheet : forall names,
  (names <> [] -> In (detect_product_sheet (Ret names)) names) /\
  (In "products" names -> detect_product_sheet (Ret names) = "products") /\
  (~ In "products" names -> In "商品信息" names ->
   detect_product_sheet (Ret names) = "商品信息") /\
  (~ In "products" names -> ~ In "商品信息" names ->
   detect_product_sheet (Ret names) = List.hd "products" names) /\
  (forall e, detect_product_sheet (Raise e) = "products").
Proof.
  intros names. unfold detect_product_sheet, PRODUCT_SHEET_PREFERRED.
  cbn [find].
  destruct (Sheet.mem "products" names) eqn:E1.
  - apply mem_In in E1.
    split; [auto|]. split; [auto|]. split; [intros H; contradiction|].
    split; [intros H; contradiction | reflexivity].
  - apply mem_not_In in E1.
    destruct (Sheet.mem "商品信息" names) eqn:E2.
    + apply mem_In in E2.
      split; [auto|]. split; [intros H; contradiction|]. split; [auto|].
      split; [intros _ H; contradiction | reflexivity].
    + apply mem_not_In in E2.
      split; [intros H; destruct names; [congruence | now left]|].
      split; [intros H; contradiction|].
      split; [intros _ H; contradiction|].
      split; [intros _ _; now destruct names | reflexivity].
Qed.

Lemma detect_product_sheet_names_a_sheet_witness :
  detect_product_sheet (Ret ["Sheet1"; "商品信息"; "log"]) = "商品信息" /\
  detect_product_sheet (Ret ["Sheet1"; "log"]) = "Sheet1".
Proof.
  split.
  - apply (detect_product_sheet_names_a_sheet ["Sheet1"; "商品信息"; "log"]).
    + intros [H|[H|[H|[]]]]; discriminate.
    + right; now left.
  - apply (detect_product_sheet_names_a_sheet ["Sheet1"; "log"]).
    + intros [H|[H|[]]]; discriminate.
    + intros [H|[H|[]]]; discriminate.
Defined.

(** ** Name lookup, continued *)

Lemma head_incl {A} n (l : list A) x : In x (head n l) -> In x l.
Proof. unfold head. destruct (0 <=? n)%Z; apply in_firstn. Qed.

(** [head] with a limit that is not negative is a prefix. *)
Lemma head_prefix {A} n (l : list A) :
  (0 <= n)%Z -> exists rest, l = head n l ++ rest.
Proof.
  intros H. unfold head. apply Z.leb_le in H. rewrite H.
  exists (skipn (Z.to_nat n) l). symmetry. apply firstn_skipn.
Qed.



Lemma existsb_eqb_In s names : existsb (String.eqb s) names = true <-> In s names.
Proof.
  rewrite existsb_exists. split.
  - intros (x & Hx & E). apply String.eqb_eq in E. now subst.
  - intros H. exists s. split; [assumption | apply String.eqb_refl].
Qed.

(** Rows picked by name among [names], when no two rows share a name: no
    more rows than names. *)
Lemma isin_filter_length (df : list Product) (names : list string) :
  NoDup (map name df) ->
  (length (filter (fun p => isin (name p) names) df) <= length names)%nat.
Proof.
  intros ND.
  set (picked := filter (fun p => isin (name p) names) df).
  assert (H1 : NoDup (map name picked)).
  { subst picked. clear -ND. induction df as [|p df IH]; simpl; [constructor|].
    inversion ND as [|? ? Hp ND']; subst. specialize (IH ND').
    destruct (isin (name p) names); [|exact IH]. simpl. constructor; [|exact IH].
    intros Hin. apply Hp. apply in_map_iff in Hin as (q & Hq & Hin).
    apply filter_In in Hin as [Hin _]. apply in_map_iff. eauto. }
  assert (H2 : incl (map name picked) (map Some names)).
  { intros x Hx. apply in_map_iff in Hx as (p & <- & Hp).
    apply filter_In in Hp as [_ Hp]. unfold isin in Hp.
    destruct (name p) as [s|]; [|discriminate].
    apply existsb_eqb_In in Hp. now apply in_map. }
  apply NoDup_incl_length in H2; [|exact H1].
  now rewrite !length_map in H2.
Qed.

(** X3: when no two catalog rows share a name, [search_by_name] keeps to the
    limit in the similarity branch as well. *)
Theorem search_by_name_bound_distinct_names :
  forall avail str_contains extract q df limit,
  extract_contract extract ->
  NoDup (map name df) ->
  (0 <= limit)%Z ->
  (length (search_by_name avail str_contains extract q df limit)
   <= Z.to_nat limit)%nat.
Proof.
  intros avail str_contains extract q df limit He ND Hl.
  unfold search_by_name.
  destruct (String.length (strip q) =? 0)%nat; [simpl; lia|].
  destruct (_ || _).
  - now apply head_length.
  - etransitivity; [apply isin_filter_length; exact ND|].
    rewrite length_map.
    now apply (He (strip q) (map (fun p => astype_str (name p)) df) limit).
Qed.

Lemma search_by_name_bound_distinct_names_witness :
  (length (search_by_name true literal_contains sample_extract "nodle"
             seed_catalog 1) <= 1)%nat.
Proof.
  apply (search_by_name_bound_distinct_names true literal_contains
           sample_extract "nodle" seed_catalog 1).
  - exact sample_extract_contract.
  - repeat (constructor; [cbn [In map]; intuition discriminate|]). constructor.
  - lia.
Defined.

(** ** Stock updates, continued *)

Lemma map_id_persisted l : map id (map persisted l) = map id l.
Proof. rewrite map_map. now apply map_ext. Qed.

Lemma map_barcode_persisted l : map barcode (map persisted l) = map barcode l.
Proof. rewrite map_map. now apply map_ext. Qed.

Lemma map_price_persisted l : map price (map persisted l) = map price l.
Proof. rewrite map_map. now apply map_ext. Qed.

Lemma map_stock_persisted l : map stock (map persisted l) = map stock l.
Proof. rewrite map_map. now apply map_ext. Qed.

(** What a stock update leaves: the world as it was, when no row has the
    barcode; otherwise the world with the stock of the first such row
    written. *)
Lemma update_stock_effect uuid4 clock b delta operator typ note w :
  (absent b w /\
   update_stock_by_barcode uuid4 clock b delta operator typ note w =
   (w, Ret (false, not_found_msg))) \/
  (exists pre p post,
     products (store w) = pre ++ p :: post /\
     (forall y, In y pre -> barcode y <> b) /\ barcode p = b /\
     update_stock_by_barcode uuid4 clock b delta operator typ note w =
     (stock_written w pre p post delta, Raise at_row_error)).
Proof.
  destruct (absent_or_first b w) as [H|(pre & p & post & Hl & Hpre & Hp)].
  - left. split; [assumption | now apply update_stock_absent].
  - right. exists pre, p, post. repeat split; auto.
    now apply update_stock_present.
Qed.

(** X4: a stock update changes no identifier, barcode or price, adds or removes
    no row, touches neither the transactions nor the cart; and when the
    catalog splits at the first row with the barcode, that row's stock is
    the old stock plus the change and every other stock is as before. *)
Theorem update_stock_keeps_rows :
  forall uuid4 clock b delta operator typ note w,
  let w' := fst (update_stock_by_barcode uuid4 clock b delta operator typ
                   note w) in
  map id (products (store w')) = map id (products (store w)) /\
  map barcode (products (store w')) = map barcode (products (store w)) /\
  map price (products (store w')) = map price (products (store w)) /\
  transactions (store w') = transactions (store w) /\
  cart w' = cart w /\
  (forall pre p post,
     products (store w) = pre ++ p :: post ->
     (forall y, In y pre -> barcode y <> b) -> barcode p = b ->
     map stock (products (store w')) =
     map stock pre ++ (stock p + delta)%Z :: map stock post).
Proof.
  intros uuid4 clock b delta operator typ note w w'. subst w'.
  destruct (update_stock_effect uuid4 clock b delta operator typ note w)
    as [[Ha ->]|(pre & p & post & Hl & Hpre & Hp & ->)]; cbn [fst].
  - repeat split. intros pre p post Hl Hpre Hp.
    exfalso. apply (Ha p); [|assumption]. rewrite Hl. apply in_elt.
  - cbn [stock_written store products transactions cart].
    rewrite map_id_persisted, map_barcode_persisted, map_price_persisted,
      map_stock_persisted, Hl.
    split; [now rewrite !map_app|]. split; [now rewrite !map_app|].
    split; [now rewrite !map_app|]. split; [reflexivity|].
    split; [reflexivity|].
    intros pre' p' post' Hl' Hpre' Hp'.
    assert (E : pre = pre' /\ p = p' /\ post = post').
    { clear -Hl' Hpre Hp Hpre' Hp'. revert pre' Hl' Hpre'.
      induction pre as [|a pre IH]; intros [|a' pre'] E H'; simpl in E.
      - injection E as -> ->. auto.
      - injection E as -> _. exfalso. apply (H' a'); [now left | assumption].
      - injection E as -> _. exfalso. apply (Hpre p'); [now left | assumption].
      - injection E as -> E. destruct (IH (fun y Hy => Hpre y (or_intror Hy))
                                          pre' E (fun y Hy => H' y (or_intror Hy)))
          as (-> & -> & ->). auto. }
    destruct E as (<- & <- & <-). rewrite map_app. reflexivity.
Qed.

Lemma update_stock_keeps_rows_witness :
  map stock (products (store (fst (update_stock_by_barcode sample_uuid4
     sample_clock "6909876543210" 12 "仓库" "in" "" seed_world)))) =
  [50%Z; 42%Z].
Proof.
  destruct (update_stock_keeps_rows sample_uuid4 sample_clock "6909876543210"
              12 "仓库" "in" "" seed_world) as (_ & _ & _ & _ & _ & H).
  apply (H [seed_water] seed_noodles []).
  - reflexivity.
  - intros y [<-|[]]. discriminate.
  - reflexivity.
Defined.

Lemma persisted_with_stock p a b :
  persisted (with_stock (persisted (with_stock p a)) b) =
  persisted (with_stock p b).
Proof. unfold persisted, with_stock. cbn. now rewrite !reread_idem. Qed.

(** X5: two stock updates of one barcode, one after the other, leave the
    catalog that a single update by the sum of the two changes leaves; so
    adding a quantity and then removing it gives every stock back. *)
Theorem update_stock_twice_is_sum :
  forall uuid4 clock b d1 d2 op1 typ1 note1 op2 typ2 note2 op3 typ3 note3 w,
  products (store (fst (update_stock_by_barcode uuid4 clock b d2 op2 typ2 note2
    (fst (update_stock_by_barcode uuid4 clock b d1 op1 typ1 note1 w))))) =
  products (store (fst (update_stock_by_barcode uuid4 clock b (d1 + d2) op3
    typ3 note3 w))) /\
  map stock (products (store (fst (update_stock_by_barcode uuid4 clock b (- d1)
    op2 typ2 note2
    (fst (update_stock_by_barcode uuid4 clock b d1 op1 typ1 note1 w)))))) =
  map stock (products (store w)).
Proof.
  intros uuid4 clock b d1 d2 op1 typ1 note1 op2 typ2 note2 op3 typ3 note3 w.
  assert (Hsum : forall d d' o t n,
    products (store (fst (update_stock_by_barcode uuid4 clock b d' o t n
      (fst (update_stock_by_barcode uuid4 clock b d op1 typ1 note1 w))))) =
    products (store (fst (update_stock_by_barcode uuid4 clock b (d + d') op3
      typ3 note3 w)))).
  { intros d d' o t n.
    destruct (absent_or_first b w) as [H|(pre & p & post & Hl & Hpre & Hp)].
    - rewrite (update_stock_absent _ _ _ d) by assumption. cbn [fst].
      now rewrite !update_stock_absent by assumption.
    - rewrite (update_stock_present _ _ _ d _ _ _ _ pre p post) by assumption.
      rewrite (update_stock_present _ _ _ (d + d') _ _ _ _ pre p post)
        by assumption.
      cbn [fst].
      rewrite (update_stock_present _ _ _ d' _ _ _ _ (map persisted pre)
                 (persisted (with_stock p (stock p + d))) (map persisted post)).
      + cbn [fst stock_written store products]. rewrite !map_app. cbn [map].
        rewrite !map_persisted_idem.
        replace (stock (persisted (with_stock p (stock p + d))))
          with (stock p + d)%Z by reflexivity.
        now rewrite persisted_with_stock, Z.add_assoc.
      + cbn [stock_written store products]. rewrite map_app. reflexivity.
      + intros y Hy. apply in_map_iff in Hy as (x & <- & Hx).
        rewrite persisted_barcode. auto.
      + exact Hp. }
  split; [apply Hsum|].
  rewrite (Hsum d1 (- d1)%Z op2 typ2 note2). rewrite Z.add_opp_diag_r.
  destruct (absent_or_first b w) as [H|(pre & p & post & Hl & Hpre & Hp)].
  - now rewrite update_stock_absent by assumption.
  - rewrite (update_stock_present _ _ _ _ _ _ _ _ pre p post) by assumption.
    cbn [fst stock_written store products].
    rewrite map_stock_persisted, Hl, !map_app. cbn [map stock with_stock].
    now rewrite Z.add_0_r.
Qed.

(** ** The catalog editor, continued *)

Lemma update_product_effect uuid4 clock e n c pr pp bp bq l s t w :
  (absent e w /\
   update_product uuid4 clock e n c pr pp bp bq l s t w = (w, Ret false)) \/
  (exists pre r post,
     products (store w) = pre ++ r :: post /\
     (forall y, In y pre -> barcode y <> e) /\ barcode r = e /\
     update_product uuid4 clock e n c pr pp bp bq l s t w =
     (mkWorld
        (mkStore
           (map persisted (pre ++ edited r n c pr pp bp bq l s t :: post))
           (transactions (store w))
           (stock_log (store w) ++
            if (stock r =? s)%Z then []
            else [mkLog (uuid4 (tick w)) (clock (S (tick w))) e (Some n)
                    (s - stock r) (stock r) s "adjust_manual" "库存编辑"
                    "人工修改库存"]))
        (cart w) (if (stock r =? s)%Z then tick w else S (tick w)),
      Ret true)).
Proof.
  unfold update_product, bind, load_products. cbn [fst snd].
  destruct (absent_or_first e w) as [H|(pre & r & post & Hl & Hpre & Hr)].
  - left. split; [assumption|]. rewrite (absent_index _ _ H). reflexivity.
  - right. exists pre, r, post. repeat split; auto.
    rewrite Hl, index_where_first.
    + cbn [Nat.add]. rewrite nth_error_middle, set_row_middle.
      unfold save_products, append_stock_log, uuid4_draw, datetime_now,
        load_products, get_store, put_store, ret, bind.
      destruct (stock r =? s)%Z; simpl.
      * rewrite app_nil_r. reflexivity.
      * rewrite map_persisted_idem. reflexivity.
    + intros y Hy. apply barcode_is_false. auto.
    + now apply barcode_is_true.
Qed.



Lemma add_product_effect uuid4 clock nm bc cat pr pp bp bq loc st nt w :
  add_product uuid4 clock nm bc cat pr pp bp bq loc st nt w =
  (mkWorld
     (mkStore
        (map persisted
           (products (store w) ++
            [new_product (uuid4 (tick w)) nm bc cat pr pp bp bq loc st nt]))
        (transactions (store w))
        (stock_log (store w) ++
         if (0 <? st)%Z && negb (String.eqb (strip bc) "") then
           [mkLog (uuid4 (S (tick w))) (clock (S (S (tick w)))) (strip bc)
              (Some (strip nm)) st 0 st "in_initial" "system"
              "新建商品初始库存"]
         else []))
     (cart w)
     (if (0 <? st)%Z && negb (String.eqb (strip bc) "")
      then S (S (tick w)) else S (tick w)),
   Ret tt).
Proof.
  unfold add_product, save_products, append_stock_log, load_products,
    uuid4_draw, datetime_now, get_store, put_store, ret, bind, new_product.
  destruct ((0 <? st)%Z && negb (String.eqb (strip bc) "")); simpl.
  - rewrite map_persisted_idem. reflexivity.
  - rewrite app_nil_r. reflexivity.
Qed.





Lemma delete_product_effect b w :
  delete_product b w =
  (mkWorld
     (mkStore
        (map persisted
           (filter (fun p => negb (barcode_is b p)) (products (store w))))
        (transactions (store w)) (stock_log (store w)))
     (cart w) (tick w),
   Ret tt).
Proof. reflexivity. Qed.





(** ** The pages *)

Lemma search_by_name_incl avail str_contains extract q df limit p :
  In p (search_by_name avail str_contains extract q df limit) -> In p df.
Proof.
  unfold search_by_name.
  destruct (String.length (strip q) =? 0)%nat; [intros []|].
  destruct (_ || _).
  - intros H. apply head_incl in H. now apply filter_In in H.
  - intros H. now apply filter_In in H.
Qed.

Lemma search_by_barcode_incl code df p :
  In p (search_by_barcode code df) -> In p df.
Proof.
  unfold search_by_barcode. destruct (String.eqb (strip code) ""); [intros []|].
  intros H. now apply filter_In in H.
Qed.

Lemma resolve_incl avail str_contains extract input df limit p :
  In p (resolve avail str_contains extract input df limit) -> In p df.
Proof.
  unfold resolve. destruct (search_by_barcode input df) as [|r rest] eqn:E.
  - apply search_by_name_incl.
  - cbv beta iota. rewrite <- E. apply search_by_barcode_incl.
Qed.


Lemma add_to_cart_effect avail str_contains extract input qty w :
  add_to_cart avail str_contains extract input qty w = (w, Ret false) \/
  (exists row,
     In row (products (store w)) /\
     add_to_cart avail str_contains extract input qty w =
     (mkWorld (store w) (cart w ++ [cart_item row qty]) (tick w), Ret true)).
Proof.
  unfold add_to_cart. destruct (String.eqb (strip input) ""); [now left|].
  unfold bind, load_products. cbn [fst snd].
  destruct (resolve avail str_contains extract input (products (store w)) 1)
    as [|row rest] eqn:E; [now left|].
  right. exists row. split; [|reflexivity].
  apply (resolve_incl avail str_contains extract input _ 1). rewrite E. now left.
Qed.



Lemma stock_form_effect avail str_contains extract uuid4 clock a b n q o t w :
  stock_form avail str_contains extract uuid4 clock a b n q o t w =
    (w, Ret (false, form_not_found)) \/
  (exists row,
     In row (products (store w)) /\
     stock_form avail str_contains extract uuid4 clock a b n q o t w =
     update_stock_by_barcode uuid4 clock (barcode row) (form_delta a q) o
       (form_typ a) t w).
Proof.
  unfold stock_form, bind, load_products. cbn [fst snd].
  set (by_bar := if negb (String.eqb (strip b) "")
                 then search_by_barcode b (products (store w)) else []).
  assert (Hbar : forall p, In p by_bar -> In p (products (store w))).
  { subst by_bar. destruct (negb _); [apply search_by_barcode_incl | intros ? []]. }
  set (found :=
    if (length by_bar =? 0)%nat && negb (String.eqb (strip n) "")
    then match search_by_name avail str_contains extract n
                 (products (store w)) 1 with
         | [] => by_bar
         | r :: rest => r :: rest
         end
    else by_bar).
  assert (Hfound : forall p, In p found -> In p (products (store w))).
  { subst found. destruct (_ && _); [|exact Hbar].
    destruct (search_by_name _ _ _ n _ 1) as [|r rest] eqn:E; [exact Hbar|].
    intros p Hp. apply (search_by_name_incl avail str_contains extract n _ 1).
    now rewrite E. }
  destruct found as [|row rest]; [now left|].
  right. exists row. split; [apply Hfound; now left|].
  unfold row_barcode, form_delta, form_typ.
  destruct (String.eqb a "入库"); [reflexivity|].
  destruct (String.eqb a "出库"); reflexivity.
Qed.



(** ** Sessions *)

Lemma checkout_effect uuid4 clock paid w :
  fst (checkout uuid4 clock paid w) = w \/
  (exists pre p post d,
     products (store w) = pre ++ p :: post /\
     fst (checkout uuid4 clock paid w) = stock_written w pre p post d).
Proof.
  destruct (cart w) as [|it rest] eqn:E.
  - left. unfold checkout, bind, get_cart. cbn [fst snd]. now rewrite E.
  - destruct (cart_split (cart w) w)
      as [H|(l1 & it' & l2 & pre & p & post & Hc & H1 & Hl & Hpre & Hp)].
    + left. rewrite checkout_all_absent; [reflexivity | congruence | assumption].
    + right. exists pre, p, post, (- qty it')%Z. split; [assumption|].
      now rewrite (checkout_first_present _ _ _ _ l1 it' l2 pre p post).
Qed.

Lemma map_id_with_stock pre p post z :
  map id (pre ++ with_stock p z :: post) = map id (pre ++ p :: post).
Proof. now rewrite !map_app. Qed.

(** What one action does to the workbook, in the terms the session
    invariants need. *)
Lemma step_shape avail str_contains extract uuid4 clock c w :
  let w' := step avail str_contains extract uuid4 clock w c in
  (tick w <= tick w')%nat /\
  transactions (store w') = transactions (store w) /\
  (exists l, stock_log (store w') = stock_log (store w) ++ l /\
             Forall log_ok l) /\
  (products (store w') = products (store w) \/
   (exists l, products (store w') = map persisted l /\
              map id l = map id (products (store w))) \/
   (exists f, products (store w') =
              map persisted (filter f (products (store w)))) \/
   (exists new, products (store w') =
                map persisted (products (store w) ++ [new]) /\
                id new = uuid4 (tick w) /\ (tick w < tick w')%nat)).
Proof.
  assert (Hsame : forall w0 : World,
    (tick w0 <= tick w0)%nat /\
    transactions (store w0) = transactions (store w0) /\
    (exists l, stock_log (store w0) = stock_log (store w0) ++ l /\
               Forall log_ok l) /\
    (products (store w0) = products (store w0) \/
     (exists l, products (store w0) = map persisted l /\
                map id l = map id (products (store w0))) \/
     (exists f, products (store w0) =
                map persisted (filter f (products (store w0)))) \/
     (exists new, products (store w0) =
                  map persisted (products (store w0) ++ [new]) /\
                  id new = uuid4 (tick w0) /\ (tick w0 < tick w0)%nat))).
  { intros w0. repeat split; auto. exists []. now rewrite app_nil_r. }
  assert (Hwritten : forall pre p post d,
    products (store w) = pre ++ p :: post ->
    (tick w <= tick (stock_written w pre p post d))%nat /\
    transactions (store (stock_written w pre p post d)) =
      transactions (store w) /\
    (exists l, stock_log (store (stock_written w pre p post d)) =
               stock_log (store w) ++ l /\ Forall log_ok l) /\
    (products (store (stock_written w pre p post d)) = products (store w) \/
     (exists l, products (store (stock_written w pre p post d)) =
                map persisted l /\ map id l = map id (products (store w))) \/
     (exists f, products (store (stock_written w pre p post d)) =
                map persisted (filter f (products (store w)))) \/
     (exists new, products (store (stock_written w pre p post d)) =
                  map persisted (products (store w) ++ [new]) /\
                  id new = uuid4 (tick w) /\
                  (tick w < tick (stock_written w pre p post d))%nat))).
  { intros pre p post d Hl. cbn [stock_written store products transactions
                                  stock_log tick].
    split; [lia|]. split; [reflexivity|].
    split; [exists []; now rewrite app_nil_r|].
    right; left. eexists. split; [reflexivity|].
    rewrite Hl. apply map_id_with_stock. }
  destruct c as [i q| |paid|a b n q o t|n b c p pp bp bq l s t
                |e n c p pp bp bq l s t|e]; cbn [step]; cbv zeta.
  - destruct (add_to_cart_effect avail str_contains extract i q w)
      as [->|(row & _ & ->)]; cbn [fst]; [apply Hsame|].
    cbn [store tick]. repeat split; auto. exists []. now rewrite app_nil_r.
  - unfold clear_cart, put_cart. cbn [fst store tick].
    repeat split; auto. exists []. now rewrite app_nil_r.
  - destruct (checkout_effect uuid4 clock paid w)
      as [->|(pre & p & post & d & Hl & ->)]; [apply Hsame | now apply Hwritten].
  - destruct (stock_form_effect avail str_contains extract uuid4 clock a b n q
                o t w) as [->|(row & _ & ->)]; [apply Hsame|].
    destruct (update_stock_effect uuid4 clock (barcode row) (form_delta a q) o
                (form_typ a) t w)
      as [[_ ->]|(pre & r & post & Hl & _ & _ & ->)];
      [apply Hsame | now apply Hwritten].
  - rewrite add_product_effect. cbn [fst store products transactions stock_log
                                      tick].
    split; [destruct (_ && _); lia|]. split; [reflexivity|]. split.
    + eexists. split; [reflexivity|].
      destruct (_ && _); [|constructor].
      constructor; [|constructor]. unfold log_ok. cbn. lia.
    + right; right; right. eexists. split; [reflexivity|].
      split; [reflexivity|]. destruct (_ && _); lia.
  - destruct (update_product_effect uuid4 clock e n c p pp bp bq l s t w)
      as [[_ ->]|(pre & r & post & Hl & _ & _ & ->)]; [apply Hsame|].
    cbn [fst store products transactions stock_log tick].
    split; [destruct (stock r =? s)%Z; lia|]. split; [reflexivity|]. split.
    + eexists. split; [reflexivity|].
      destruct (stock r =? s)%Z; [constructor|].
      constructor; [|constructor]. unfold log_ok. cbn. lia.
    + right; left. eexists. split; [reflexivity|].
      rewrite Hl, !map_app. reflexivity.
  - rewrite delete_product_effect. cbn [fst store products transactions
                                         stock_log tick].
    split; [lia|]. split; [reflexivity|].
    split; [exists []; now rewrite app_nil_r|].
    right; right; left. eexists. reflexivity.
Qed.


(** X14: once the sheet is in the form [save_products] writes, every action
    leaves it so. *)
Theorem session_keeps_written_form :
  forall avail str_contains extract uuid4 clock cmds w,
  written_form w ->
  written_form (session avail str_contains extract uuid4 clock cmds w).
Proof.
  intros avail str_contains extract uuid4 clock cmds.
  induction cmds as [|c cmds IH]; intros w Hw; [exact Hw|].
  unfold session. cbn [fold_left]. apply IH. unfold written_form in *.
  destruct (step_shape avail str_contains extract uuid4 clock c w)
    as (_ & _ & _ & [H|[(l & H & _)|[(f & H)|(new & H & _)]]]); rewrite H.
  - exact Hw.
  - apply map_persisted_idem.
  - apply map_persisted_idem.
  - apply map_persisted_idem.
Qed.

Lemma session_keeps_written_form_witness :
  written_form
    (session true literal_contains sample_extract sample_uuid4 sample_clock
       [AddProduct "jam" " 9001 " "food" 3 2 20 12 "B1" 4 "";
        StockForm "入库" "9001" "" 6 "仓库" ""; DeleteProduct "4711"] shop).
Proof.
  apply (session_keeps_written_form true literal_contains sample_extract
           sample_uuid4 sample_clock). reflexivity.
Defined.

Lemma in_map_id_filter (f : Product -> bool) l x :
  In x (map id (filter f l)) -> In x (map id l).
Proof.
  intros H. apply in_map_iff in H as (p & <- & Hp).
  apply filter_In in Hp as [Hp _]. now apply in_map.
Qed.

Lemma nodup_map_id_filter (f : Product -> bool) l :
  NoDup (map id l) -> NoDup (map id (filter f l)).
Proof.
  induction l as [|p l IH]; simpl; intros H; [constructor|].
  inversion H as [|? ? Hp H']; subst.
  destruct (f p); simpl; [|now apply IH].
  constructor; [|now apply IH].
  intros Hin. apply Hp. now apply in_map_id_filter in Hin.
Qed.

Lemma tally_uuid4_injective m n : tally_uuid4 m = tally_uuid4 n -> m = n.
Proof.
  revert n. induction m as [|m IH]; intros [|n] H; simpl in H;
    try reflexivity; try discriminate.
  injection H as H. f_equal. now apply IH.
Qed.

(** X15: when [uuid4] never repeats and the identifiers of the catalog are
    pairwise distinct and not among those still to come, they stay so over
    any session: no action gives two rows the same identifier. *)
Theorem session_keeps_ids_distinct :
  forall avail str_contains extract uuid4 clock cmds w,
  (forall m n, uuid4 m = uuid4 n -> m = n) ->
  ids_fresh uuid4 w ->
  ids_fresh uuid4 (session avail str_contains extract uuid4 clock cmds w).
Proof.
  intros avail str_contains extract uuid4 clock cmds w Hinj. revert w.
  induction cmds as [|c cmds IH]; intros w Hw; [exact Hw|].
  unfold session. cbn [fold_left]. apply IH. clear IH.
  destruct Hw as [Hnd Hfresh]. unfold ids_fresh.
  destruct (step_shape avail str_contains extract uuid4 clock c w)
    as (Ht & _ & _ & [H|[(l & H & Hid)|[(f & H)|(new & H & Hnew & Hlt)]]]);
    rewrite H.
  - split; [exact Hnd|]. intros n Hn. apply Hfresh. lia.
  - rewrite map_id_persisted, Hid. split; [exact Hnd|].
    intros n Hn. apply Hfresh. lia.
  - rewrite map_id_persisted. split; [now apply nodup_map_id_filter|].
    intros n Hn Hin. apply in_map_id_filter in Hin.
    apply (Hfresh n); [lia | assumption].
  - rewrite map_id_persisted, map_app. cbn [map]. rewrite Hnew. split.
    + apply NoDup_app_remove_l with (l := []). cbn [app].
      apply NoDup_Add with (a := uuid4 (tick w)) (l := map id (products (store w))).
      * replace (map id (products (store w)) ++ [uuid4 (tick w)])
          with (map id (products (store w)) ++ uuid4 (tick w) :: [])
          by reflexivity.
        rewrite <- (app_nil_r (map id (products (store w)))) at 1.
        apply Add_app.
      * split; [exact Hnd|]. apply Hfresh. lia.
    + intros n Hn Hin. apply in_app_or in Hin as [Hin|[Hin|[]]].
      * apply (Hfresh n); [lia | assumption].
      * apply Hinj in Hin. lia.
Qed.

Lemma session_keeps_ids_distinct_witness :
  ids_fresh tally_uuid4
    (session true literal_contains sample_extract tally_uuid4 sample_clock
       [AddProduct "jam" " 9001 " "food" 3 2 20 12 "B1" 4 "";
        AddProduct "jam" " 9001 " "food" 3 2 20 12 "B1" 0 ""] shop).
Proof.
  apply (session_keeps_ids_distinct true literal_contains sample_extract
           tally_uuid4 sample_clock).
  - exact tally_uuid4_injective.
  - split.
    + repeat (constructor; [cbn [In map]; intuition discriminate|]).
      constructor.
    + intros n _ Hin. cbn in Hin.
      destruct n as [|n]; cbn in Hin; intuition discriminate.
Defined.

(** ** Recent transactions *)

Lemma recent_firstn {A} n (l : list A) : recent n l = firstn n (rev l).
Proof. unfold recent, tail. symmetry. apply firstn_rev. Qed.

(** X16: the list of recent transactions holds at most ten of them, the newest
    first; right after [append_transaction] the appended record heads it,
    followed by the nine newest of before; and the catalog and the stock log
    are those of before. *)
Theorem recent_transactions_newest_first : forall tx_record w,
  let w' := fst (append_transaction tx_record w) in
  snd (recent_transactions w') =
    Ret (tx_record :: firstn 9 (rev (transactions (store w)))) /\
  snd (recent_transactions w) = Ret (firstn 10 (rev (transactions (store w)))) /\
  (forall l, snd (recent_transactions w) = Ret l -> (length l <= 10)%nat) /\
  stock_log (store w') = stock_log (store w) /\
  products (store w') = map persisted (products (store w)).
Proof.
  intros tx_record w w'. subst w'.
  unfold recent_transactions, append_transaction, load_products, get_store,
    put_store, ret, bind. cbn [fst snd store transactions stock_log products].
  rewrite !recent_firstn, rev_app_distr.
  split; [reflexivity|]. split; [reflexivity|]. split; [|split; reflexivity].
  intros l H. injection H as <-.
  exact (firstn_le_length 10 (rev (transactions (store w)))).
Qed.

Lemma recent_transactions_newest_first_witness :
  (length (@nil Transaction) <= 10)%nat /\
  snd (recent_transactions
         (fst (append_transaction
                 (mkTxn "t-1" "2024-01-01 09:00:00" [water_line] 5 10 5
                    "收银" "") seed_world))) =
  Ret [mkTxn "t-1" "2024-01-01 09:00:00" [water_line] 5 10 5 "收银" ""].
Proof.
  destruct (recent_transactions_newest_first
              (mkTxn "t-1" "2024-01-01 09:00:00" [water_line] 5 10 5 "收银" "")
              seed_world) as (H1 & _ & H3 & _).
  split; [apply H3; reflexivity | exact H1].
Defined.

(** ** The products sheet, continued *)

Section SheetMore.

Import Sheet.

Variable to_numeric : string -> option float.

Lemma astype_int_raises s c :
  In c s -> (forall c', astype_int_cell c <> Ret c') ->
  forall r, astype_int s <> Ret r.
Proof.
  induction s as [|a s IH]; intros Hin Hc r; [destruct Hin|].
  cbn [astype_int]. destruct Hin as [->|Hin].
  - destruct (astype_int_cell c) as [c'|e] eqn:E;
      [exfalso; apply (Hc c'); reflexivity|].
    discriminate.
  - destruct (astype_int_cell a) as [a'|e]; [|discriminate]. cbn [obind].
    destruct (astype_int s) as [r'|e] eqn:E; [|discriminate].
    exfalso. now apply (IH Hin Hc r').
Qed.

Lemma int_column_non_finite col c f :
  In c col -> to_numeric_cell to_numeric c = Num f -> float_to_int f = None ->
  int_column to_numeric col = map (fun _ => Int 0) col.
Proof.
  intros Hin Hc Hf. unfold int_column.
  destruct (astype_int _) as [r|e] eqn:E; [|reflexivity].
  exfalso. revert E.
  apply (astype_int_raises _ (Num f)).
  - apply in_map_iff. exists (Num f). split; [reflexivity|].
    apply in_map_iff. exists c. now split.
  - intros c'. cbn [astype_int_cell]. rewrite Hf. discriminate.
Qed.

End SheetMore.

(** X17: one stock cell that reads as an infinity (or any number without an
    integer value) makes the cast of the column fail, and the [except]
    branch then sets the stock of every row to 0, the valid ones
    included. *)
Theorem load_products_non_finite_stock :
  forall to_numeric created raw col s f,
  NoDup (map (Sheet.internal_label raw) (map fst (Sheet.raw_columns raw))) ->
  Sheet.source raw "stock" = [col] ->
  In (Some s) col -> to_numeric s = Some f -> PrimFloat.is_nan f = false ->
  Sheet.float_to_int f = None ->
  exists df,
    Sheet.load_products to_numeric true created (Ret raw) = Ret df /\
    Sheet.getitem "stock" df = [map (fun _ => Sheet.Int 0) col].
Proof.
  intros to_numeric created raw col s f ND Hsrc Hin Hs Hnan Hf.
  destruct (read_products_column to_numeric raw "stock" ND) as (df & H1 & _ & H2).
  { apply in_internal_columns. cbn [In]. auto 20. }
  exists df. split.
  - rewrite load_products_ensured by reflexivity. exact H1.
  - rewrite H2, Hsrc.
    change (Sheet.normalized to_numeric "stock" (map Sheet.of_cell col))
      with (Sheet.int_column to_numeric (map Sheet.of_cell col)).
    rewrite (int_column_non_finite to_numeric _ (Sheet.Str s) f).
    + now rewrite map_map.
    + apply in_map_iff. exists (Some s). now split.
    + cbn [Sheet.to_numeric_cell]. now rewrite Hs, Hnan.
    + exact Hf.
Qed.

Lemma load_products_non_finite_stock_witness :
  exists df,
    Sheet.load_products sample_to_numeric true (Ret tt) (Ret overflow_sheet)
    = Ret df /\
    Sheet.getitem "stock" df = [[Sheet.Int 0; Sheet.Int 0; Sheet.Int 0]].
Proof.
  apply (load_products_non_finite_stock sample_to_numeric (Ret tt)
           overflow_sheet [Some "50"; Some "inf"; Some "7"] "inf"
           PrimFloat.infinity).
  - vm_compute. repeat (constructor; [cbn [In]; intuition discriminate|]).
    constructor.
  - reflexivity.
  - right; now left.
  - reflexivity.
  - reflexivity.
  - reflexivity.
Defined.

Lemma chinese_not_internal c :
  In c Sheet.INTERNAL_COLUMNS -> ~ In c Sheet.CHINESE_HEADERS_ORDER.
Proof.
  intros H. vm_compute in H.
  repeat (destruct H as [<-|H];
          [vm_compute; intuition discriminate|]).
  destruct H.
Qed.

Lemma rename_label_not_key c :
  ~ In (Sheet.rename_label Sheet.COLUMN_MAP c) Sheet.CHINESE_HEADERS_ORDER.
Proof.
  unfold Sheet.rename_label.
  destruct (find _ Sheet.COLUMN_MAP) as [kv|] eqn:E.
  - apply find_some in E as [E _].
    apply chinese_not_internal. unfold Sheet.INTERNAL_COLUMNS.
    apply in_or_app. left. unfold Sheet.ENGLISH_HEADERS_ORDER. now apply in_map.
  - intros Hin. unfold Sheet.CHINESE_HEADERS_ORDER in Hin.
    apply in_map_iff in Hin as (kv & <- & Hkv).
    apply (find_none _ _ E) in Hkv. now rewrite String.eqb_refl in Hkv.
Qed.

(** X18: the frame [load_products] returns keeps the sheet's rows and, when the
    header names each column once, its columns in their order, under
    internal names, unknown columns included, followed by the internal
    columns the sheet lacks, in their fixed order.  Whatever the header, no
    localized label is left among the labels. *)
Theorem load_products_labels :
  forall to_numeric created,
  (forall raw,
     NoDup (map (Sheet.internal_label raw) (map fst (Sheet.raw_columns raw))) ->
     exists df,
       Sheet.load_products to_numeric true created (Ret raw) = Ret df /\
       Sheet.index df = Sheet.raw_index raw /\
       Sheet.labels df =
       map (Sheet.internal_label raw) (map fst (Sheet.raw_columns raw)) ++
       filter (fun c => negb (Sheet.mem c
                 (map (Sheet.internal_label raw)
                    (map fst (Sheet.raw_columns raw)))))
         Sheet.INTERNAL_COLUMNS) /\
  (forall file df,
     Sheet.load_products to_numeric true created file = Ret df ->
     forall l, In l (Sheet.labels df) -> ~ In l Sheet.CHINESE_HEADERS_ORDER).
Proof.
  intros to_numeric created. split.
  - intros raw ND. rewrite <- labels_header_frame in *.
    exists (Sheet.typed to_numeric (Sheet.completed (Sheet.header_frame raw))).
    split; [|split].
    + rewrite load_products_ensured by reflexivity.
      now apply read_products_unique.
    + rewrite index_typed, index_completed. apply index_header_frame.
    + unfold Sheet.typed. rewrite !labels_map_named. apply labels_completed.
  - intros file df H l Hl.
    rewrite load_products_ensured in H by reflexivity.
    assert (Hempty : forall l0, In l0 (Sheet.labels Sheet.empty_catalog) ->
                                ~ In l0 Sheet.CHINESE_HEADERS_ORDER).
    { intros l0 H0. rewrite labels_empty_catalog in H0.
      now apply chinese_not_internal. }
    destruct file as [raw|e];
      [rewrite read_products_ret in H | rewrite read_products_raise in H].
    + destruct (Sheet.type_columns to_numeric _) as [df'|e] eqn:E.
      * injection H as <-.
        destruct (type_columns_shape to_numeric _ _
                    (fun c Hc => completed_has c _ Hc)
                    (completed_rawlike _ (header_frame_rawlike raw)) E)
          as (Hlab & _).
        rewrite Hlab, labels_completed in Hl.
        apply in_app_or in Hl as [Hl|Hl].
        -- rewrite labels_header_frame in Hl.
           apply in_map_iff in Hl as (k & <- & Hk).
           unfold Sheet.internal_label.
           destruct (existsb _ Sheet.CHINESE_HEADERS_ORDER) eqn:Ex.
           ++ apply rename_label_not_key.
           ++ intros Hin.
              assert (Et : existsb
                        (fun c => Sheet.mem c (map fst (Sheet.raw_columns raw)))
                        Sheet.CHINESE_HEADERS_ORDER = true).
              { apply existsb_exists. exists k. split; [assumption|].
                now apply mem_In. }
              congruence.
        -- apply filter_In in Hl as [Hl _]. now apply chinese_not_internal.
      * injection H as <-. now apply Hempty.
    + injection H as <-. now apply Hempty.
Qed.

Lemma load_products_labels_witness :
  exists df,
    Sheet.load_products sample_to_numeric true (Ret tt) (Ret custom_sheet)
    = Ret df /\
    Sheet.index df = 1%nat /\
    Sheet.labels df =
    ["barcode"; "shelf life"; "stock"; "category"; "id"; "name"; "bulk_price";
     "bulk_quantity"; "purchase_price"; "price"; "profit_margin"; "location";
     "supplier"; "image_path"; "notes"; "expiry_date"].
Proof.
  destruct (load_products_labels sample_to_numeric (Ret tt)) as [H _].
  destruct (H custom_sheet) as (df & H1 & H2 & H3).
  - vm_compute. repeat (constructor; [cbn [In]; intuition discriminate|]).
    constructor.
  - exists df. split; [exact H1|]. split; [exact H2|]. rewrite H3.
    vm_compute. reflexivity.
Defined.

(** ** Writing the sheet and reading its header back *)

Section SaveHeader.

Import Sheet SheetWrite.

Lemma unique_labels_NoDup l : unique_labels l = true <-> NoDup l.
Proof.
  induction l as [|x l IH]; cbn [unique_labels].
  - split; [constructor | reflexivity].
  - rewrite andb_true_iff, negb_true_iff, IH. split.
    + intros [H1 H2]. constructor; [now apply mem_not_In | assumption].
    + intros H. inversion H; subst. split; [now apply mem_not_In | assumption].
Qed.

Lemma labels_rename m df :
  labels (rename m df) = map (rename_label m) (labels df).
Proof. unfold labels, rename. cbn [columns]. now rewrite !map_map. Qed.

Lemma nodup_map_inj_in {A B} (f : A -> B) l :
  (forall x y, In x l -> In y l -> f x = f y -> x = y) ->
  NoDup l -> NoDup (map f l).
Proof.
  induction l as [|a l IH]; intros Hinj ND; cbn [map]; [constructor|].
  inversion ND as [|? ? Ha ND']; subst. constructor.
  - intros Hin. apply in_map_iff in Hin as (y & Hy & Hin).
    apply Ha. rewrite (Hinj a y); auto; [now left | now right].
  - apply IH; [|assumption]. intros x y Hx Hy. apply Hinj; now right.
Qed.

(** Renaming through a table whose values are pairwise distinct is
    one-to-one on the labels that are not among the values. *)
Lemma rename_label_inj m x y :
  NoDup (map snd m) ->
  ~ In x (map snd m) -> ~ In y (map snd m) ->
  rename_label m x = rename_label m y -> x = y.
Proof.
  intros ND Hx Hy. unfold rename_label.
  destruct (find (fun kv => String.eqb (fst kv) x) m) as [[kx vx]|] eqn:Ex;
    destruct (find (fun kv => String.eqb (fst kv) y) m) as [[ky vy]|] eqn:Ey;
    cbn [snd]; intros E.
  - apply find_some in Ex as [Ix Ex]. apply find_some in Ey as [Iy Ey].
    cbn [fst] in *. apply String.eqb_eq in Ex, Ey. subst kx ky vy.
    clear -ND Ix Iy. induction m as [|[k v] m IH]; [destruct Ix|].
    cbn [map snd] in ND. inversion ND as [|? ? Hv ND']; subst.
    destruct Ix as [Ix|Ix]; destruct Iy as [Iy|Iy].
    + congruence.
    + injection Ix as -> ->. exfalso. apply Hv.
      apply in_map_iff. now exists (y, vx).
    + injection Iy as -> ->. exfalso. apply Hv.
      apply in_map_iff. now exists (x, vx).
    + now apply IH.
  - apply find_some in Ex as [Ix _]. subst y. exfalso. apply Hy.
    apply in_map_iff. now exists (kx, vx).
  - apply find_some in Ey as [Iy _]. subst x. exfalso. apply Hx.
    apply in_map_iff. now exists (ky, vy).
  - assumption.
Qed.

Lemma reverse_values : map snd REVERSE_COLUMN_MAP = CHINESE_HEADERS_ORDER.
Proof. reflexivity. Qed.

Lemma chinese_nodup : NoDup CHINESE_HEADERS_ORDER.
Proof. apply unique_labels_NoDup. vm_compute. reflexivity. Qed.

Lemma english_not_chinese c :
  In c ENGLISH_HEADERS_ORDER -> ~ In c CHINESE_HEADERS_ORDER.
Proof.
  intros H. apply chinese_not_internal. unfold INTERNAL_COLUMNS.
  apply in_or_app. now left.
Qed.

Lemma getitem_map_pairs {A} (g : A -> string) (h : A -> list cell) L n c :
  getitem c (mkFrame n (map (fun a => (g a, h a)) L)) =
  map h (filter (fun a => String.eqb (g a) c) L).
Proof.
  unfold getitem. cbn [columns].
  induction L as [|a L IH]; cbn [map filter fst]; [reflexivity|].
  destruct (String.eqb (g a) c); cbn [map snd]; now rewrite IH.
Qed.

Lemma english_key c :
  In c ENGLISH_HEADERS_ORDER ->
  filter (fun k => String.eqb (rename_label COLUMN_MAP k) c)
    CHINESE_HEADERS_ORDER = [rename_label REVERSE_COLUMN_MAP c].
Proof.
  intros H. vm_compute in H.
  repeat (destruct H as [<-|H]; [vm_compute; reflexivity|]). destruct H.
Qed.

Lemma getitem_rename_reverse df c :
  (forall l, In l (labels df) -> ~ In l CHINESE_HEADERS_ORDER) ->
  In c ENGLISH_HEADERS_ORDER ->
  getitem (rename_label REVERSE_COLUMN_MAP c) (rename REVERSE_COLUMN_MAP df) =
  getitem c df.
Proof.
  intros Hl Hc. unfold getitem, rename. cbn [columns].
  assert (G : forall cols : list (string * list cell),
    (forall kc, In kc cols -> ~ In (fst kc) CHINESE_HEADERS_ORDER) ->
    map snd (filter (fun kc => String.eqb (fst kc)
                                 (rename_label REVERSE_COLUMN_MAP c))
               (map (fun kc => (rename_label REVERSE_COLUMN_MAP (fst kc), snd kc))
                  cols)) =
    map snd (filter (fun kc => String.eqb (fst kc) c) cols)).
  { induction cols as [|[k col] cols IH]; intros H; [reflexivity|].
    cbn [map filter fst snd].
    assert (E : String.eqb (rename_label REVERSE_COLUMN_MAP k)
                  (rename_label REVERSE_COLUMN_MAP c) = String.eqb k c).
    { destruct (String.eqb k c) eqn:Ek.
      - apply String.eqb_eq in Ek. subst. apply String.eqb_refl.
      - apply String.eqb_neq. intros E. apply String.eqb_neq in Ek. apply Ek.
        apply (rename_label_inj REVERSE_COLUMN_MAP); auto.
        + rewrite reverse_values. apply chinese_nodup.
        + rewrite reverse_values. apply (H (k, col)). now left.
        + rewrite reverse_values. now apply english_not_chinese. }
    rewrite E. destruct (String.eqb k c); cbn [map snd];
      rewrite IH; auto; intros kc Hkc; apply H; now right. }
  apply G. intros kc Hkc. apply Hl. unfold labels. now apply in_map.
Qed.

End SaveHeader.

(** X19: the header round trip of [save_products] and [load_products]: a frame
    whose labels are pairwise distinct and none of them localized (as
    [load_products] returns them) is written under the fourteen localized
    headers, in their fixed order; reading that header back through
    [COLUMN_MAP] gives the fourteen internal names in their order, each over
    the column it had in the frame, or over a column of missing cells when
    the frame had none.  [expiry_date], which has no localized header, is not
    written. *)
Theorem save_header_round_trip : forall df,
  NoDup (Sheet.labels df) ->
  (forall l, In l (Sheet.labels df) -> ~ In l Sheet.CHINESE_HEADERS_ORDER) ->
  exists s,
    SheetWrite.to_save df = Ret s /\
    Sheet.index s = Sheet.index df /\
    Sheet.labels s = Sheet.CHINESE_HEADERS_ORDER /\
    existsb (fun c => Sheet.mem c (Sheet.labels s)) Sheet.CHINESE_HEADERS_ORDER
      = true /\
    Sheet.labels (Sheet.rename Sheet.COLUMN_MAP s) = Sheet.ENGLISH_HEADERS_ORDER /\
    (forall c, In c Sheet.ENGLISH_HEADERS_ORDER ->
       Sheet.getitem c (Sheet.rename Sheet.COLUMN_MAP s) =
       [match Sheet.getitem c df with
        | col :: _ => col
        | [] => repeat Sheet.NaN (Sheet.index df)
        end]) /\
    Sheet.getitem "expiry_date" (Sheet.rename Sheet.COLUMN_MAP s) = [].
Proof.
  intros df ND Hl.
  assert (U : SheetWrite.unique_labels
                (Sheet.labels (Sheet.rename SheetWrite.REVERSE_COLUMN_MAP df))
              = true).
  { apply unique_labels_NoDup. rewrite labels_rename.
    apply nodup_map_inj_in; [|exact ND].
    intros x y Hx Hy. apply rename_label_inj.
    - rewrite reverse_values. apply chinese_nodup.
    - rewrite reverse_values. now apply Hl.
    - rewrite reverse_values. now apply Hl. }
  set (colof := fun c : string =>
    match Sheet.getitem c (Sheet.rename SheetWrite.REVERSE_COLUMN_MAP df) with
    | s :: _ => s
    | [] => repeat Sheet.NaN (Sheet.index df)
    end).
  set (saved := Sheet.mkFrame (Sheet.index df)
                  (map (fun c => (c, colof c)) Sheet.CHINESE_HEADERS_ORDER)).
  assert (Hsave : SheetWrite.to_save df = Ret saved).
  { unfold SheetWrite.to_save, SheetWrite.reindex. rewrite U. reflexivity. }
  assert (Hlab : Sheet.labels saved = Sheet.CHINESE_HEADERS_ORDER).
  { unfold Sheet.labels, saved. cbn [Sheet.columns]. rewrite map_map.
    cbn [fst]. apply map_id. }
  assert (Hren : Sheet.rename Sheet.COLUMN_MAP saved =
          Sheet.mkFrame (Sheet.index df)
            (map (fun c => (Sheet.rename_label Sheet.COLUMN_MAP c, colof c))
               Sheet.CHINESE_HEADERS_ORDER)).
  { unfold Sheet.rename, saved. cbn [Sheet.columns Sheet.index].
    now rewrite map_map. }
  exists saved. split; [exact Hsave|]. split; [reflexivity|].
  split; [exact Hlab|]. split.
  { rewrite Hlab. vm_compute. reflexivity. }
  rewrite Hren. split; [|split].
  - unfold Sheet.labels. cbn [Sheet.columns]. rewrite map_map. cbn [fst].
    vm_compute. reflexivity.
  - intros c Hc. rewrite getitem_map_pairs, (english_key c Hc). cbn [map].
    subst colof. cbv beta. now rewrite (getitem_rename_reverse df c Hl Hc).
  - rewrite getitem_map_pairs.
    replace (filter (fun a => String.eqb (Sheet.rename_label Sheet.COLUMN_MAP a)
                                "expiry_date") Sheet.CHINESE_HEADERS_ORDER)
      with (@nil string) by (vm_compute; reflexivity).
    reflexivity.
Qed.

Lemma save_header_round_trip_witness :
  exists s,
    SheetWrite.to_save dated_frame = Ret s /\
    Sheet.getitem "stock" (Sheet.rename Sheet.COLUMN_MAP s) =
      [[Sheet.Int 4]] /\
    Sheet.getitem "price" (Sheet.rename Sheet.COLUMN_MAP s) =
      [[Sheet.NaN]] /\
    Sheet.getitem "expiry_date" (Sheet.rename Sheet.COLUMN_MAP s) = [].
Proof.
  destruct (save_header_round_trip dated_frame) as (s & H1 & _ & _ & _ & _ & H2 & H3).
  - repeat (constructor; [cbn [In]; intuition discriminate|]). constructor.
  - intros l [<-|[<-|[<-|[]]]]; vm_compute; intuition discriminate.
  - exists s. split; [exact H1|]. split; [|split; [|exact H3]].
    + rewrite H2; [reflexivity|]. vm_compute. auto 20.
    + rewrite H2; [reflexivity|]. vm_compute. auto 20.
Defined.

(** ** A line for a row without a price *)

Lemma nan_mul_is_nan x : PrimFloat.is_nan (PrimFloat.nan * x)%float = true.
Proof.
  unfold PrimFloat.is_nan. rewrite FloatAxioms.eqb_spec, FloatAxioms.mul_spec.
  change (Prim2SF PrimFloat.nan) with S754_nan.
  reflexivity.
Qed.

(** X11: a row whose price is missing gives a cart line whose price and subtotal
    are NaN, whatever the quantity: the missing price of a row is a NaN, not
    [None], so the guard that would put 0.0 does not apply. *)
Theorem cart_item_missing_price : forall row q,
  price row = None ->
  PrimFloat.is_nan (item_price (cart_item row q)) = true /\
  PrimFloat.is_nan (subtotal (cart_item row q)) = true /\
  item_barcode (cart_item row q) = barcode row /\
  qty (cart_item row q) = q.
Proof.
  intros row q H. unfold cart_item. rewrite H. cbn [item_price subtotal
    item_barcode qty].
  split; [reflexivity|]. split; [apply nan_mul_is_nan|]. split; reflexivity.
Qed.

Lemma cart_item_missing_price_witness :
  PrimFloat.is_nan (subtotal (cart_item nameless_row 3)) = true.
Proof.
  apply (cart_item_missing_price nameless_row 3). reflexivity.
Defined.
